(** * X-Skynet Python SDK: record deserialisation and the HTTP client

    A shallow embedding of [xskynet/models.py] and [xskynet/client.py].

    Python values are dynamically typed, so a record attribute holds whatever
    the server sent: every attribute is a [json] value, dictionaries are
    finite maps with string keys, and a raised exception is the [Raise] case
    of the [outcome] type. *)

From Stdlib Require Import ZArith Ascii String List.
From Stdlib Require Import Strings.Byte.
From Stdlib Require Import Floats.SpecFloat.
From Stdlib Require Import Numbers.DecimalString.
From stdpp Require Import base option list strings gmap fin_maps.

Local Open Scope string_scope.
Local Open Scope Z_scope.
Set Warnings "-register-all,-clear-no-such-hyp".

(** ** Python values as they come out of [json.loads] *)

Inductive json : Type :=
  | JNull                            (* None *)
  | JBool (b : bool)
  | JNum (n : Z)                     (* int *)
  | JFloat (f : spec_float)          (* float *)
  | JStr (s : string)
  | JArr (l : list json)
  | JObj (d : gmap string json).

(** Truth value of an object, as used by [or], [not] and [if]. *)
Definition float_truthy (f : spec_float) : bool :=
  match f with
  | S754_zero _ => false
  | _ => true
  end.

Definition truthy (v : json) : bool :=
  match v with
  | JNull => false
  | JBool b => b
  | JNum n => negb (n =? 0)
  | JFloat f => float_truthy f
  | JStr s => negb (String.eqb s "")
  | JArr l => match l with [] => false | _ => true end
  | JObj d => match map_to_list d with [] => false | _ => true end
  end.

(** [a or b] on already evaluated operands (every use in the sources has
    operands whose evaluation cannot raise once [data] is a dict). *)
Definition py_or (a b : json) : json := if truthy a then a else b.

(** [d.get(k)] and [d.get(k, dflt)]. *)
Definition dict_get (d : gmap string json) (k : string) : json :=
  default JNull (d !! k).

Definition dict_get_default (d : gmap string json) (k : string) (dflt : json) : json :=
  default dflt (d !! k).

(** ** Exceptions *)

Record APIError := mkAPIError {
  status_code : Z;
  response_body : string;
  message : string
}.

Inductive exn : Type :=
  | KeyError (key : string)
  | TypeError
  | AttributeError
  | JSONDecodeError
  | TransportError
  | XSkynetAPIError (e : APIError).

Inductive outcome (A : Type) : Type :=
  | Ok (a : A)
  | Raise (e : exn).
Arguments Ok {A} a.
Arguments Raise {A} e.

(** Sequencing: an exception raised by the first computation propagates. *)
#[global] Instance outcome_ret : MRet outcome := @Ok.
#[global] Instance outcome_bind : MBind outcome := fun A B k r =>
  match r with
  | Ok a => k a
  | Raise e => Raise e
  end.

(** A list comprehension [[f(x) for x in l]]: elements are processed left to
    right and the first exception aborts the whole comprehension. *)
Fixpoint comprehension {A B} (f : A -> outcome B) (l : list A) : outcome (list B) :=
  match l with
  | [] => Ok []
  | x :: l' =>
      y ← f x;
      ys ← comprehension f l';
      Ok (y :: ys)
  end.

(** [for x in v]: the sequence of items a value yields when iterated. *)
Definition chars_of (s : string) : list json :=
  (fun c => JStr (String c EmptyString)) <$> list_ascii_of_string s.

Definition py_iter (v : json) : outcome (list json) :=
  match v with
  | JArr l => Ok l
  | JStr s => Ok (chars_of s)
  | JObj d => Ok (JStr <$> (map_to_list d).*1)
  | JNull | JBool _ | JNum _ | JFloat _ => Raise TypeError
  end.

(** [k not in {...}] for a literal set of strings. *)
Definition not_in (k : string) (names : list string) : bool :=
  negb (existsb (String.eqb k) names).

(** The dict comprehension [{k: v for k, v in data.items() if k not in names}]. *)
Definition without_keys (names : list string) (d : gmap string json) : gmap string json :=
  filter (fun kv => not_in kv.1 names = true) d.

(** ** Operations on a value that the sources expect to be a dict

    [data["k"]], [data.get("k", dflt)] and the comprehension over
    [data.items()] applied to an arbitrary value: subscripting something that
    is not a dict with a string is a [TypeError], calling [.get] or [.items]
    on it an [AttributeError]. *)

Definition py_getitem (data : json) (k : string) : outcome json :=
  match data with
  | JObj d =>
      match d !! k with
      | Some v => Ok v
      | None => Raise (KeyError k)
      end
  | _ => Raise TypeError
  end.

Definition py_get (data : json) (k : string) (dflt : json) : outcome json :=
  match data with
  | JObj d => Ok (dict_get_default d k dflt)
  | _ => Raise AttributeError
  end.

Definition py_items_except (data : json) (names : list string) : outcome (gmap string json) :=
  match data with
  | JObj d => Ok (without_keys names d)
  | _ => Raise AttributeError
  end.

(** * models.py *)

Module Agent.

Record t := mk {
  id : json;
  name : json;
  status : json;
  role : json;
  model : json;
  last_heartbeat : json;
  metadata : gmap string json
}.

(** The attributes of the dataclass other than the [metadata] bag. *)
Definition fields : list string :=
  ["id"; "name"; "status"; "role"; "model"; "last_heartbeat"].

(** The literal set of the [metadata] comprehension. *)
Definition excluded : list string :=
  ["id"; "name"; "status"; "role"; "model"; "last_heartbeat"; "lastHeartbeat"].

Definition from_dict (data : json) : outcome t :=
  id_ ← py_getitem data "id";
  name_dflt ← py_getitem data "id";
  name_ ← py_get data "name" name_dflt;
  status_ ← py_get data "status" (JStr "unknown");
  role_ ← py_get data "role" (JStr "");
  model_ ← py_get data "model" (JStr "");
  hb ← py_get data "last_heartbeat" JNull;
  last_heartbeat_ ← (if truthy hb then Ok hb else py_get data "lastHeartbeat" JNull);
  metadata_ ← py_items_except data excluded;
  Ok (mk id_ name_ status_ role_ model_ last_heartbeat_ metadata_).

End Agent.

Module ProposalStep.

Record t := mk {
  title : json;
  assigned_to : json;
  prompt : json;
  status : json;
  result : json
}.

Definition fields : list string :=
  ["title"; "assigned_to"; "prompt"; "status"; "result"].

Definition to_dict (self : t) : gmap string json :=
  {[ "title" := title self;
     "assigned_to" := assigned_to self;
     "prompt" := prompt self ]}.

Definition from_dict (data : json) : outcome t :=
  title_ ← py_get data "title" (JStr "");
  camel ← py_get data "assignedTo" (JStr "");
  assigned_to_ ← py_get data "assigned_to" camel;
  prompt_ ← py_get data "prompt" (JStr "");
  status_ ← py_get data "status" (JStr "pending");
  result_ ← py_get data "result" JNull;
  Ok (mk title_ assigned_to_ prompt_ status_ result_).

End ProposalStep.

Module Proposal.

Record t := mk {
  id : json;
  title : json;
  description : json;
  proposed_by : json;
  priority : json;
  status : json;
  steps : list ProposalStep.t;
  created_at : json;
  updated_at : json;
  metadata : gmap string json
}.

Definition fields : list string :=
  ["id"; "title"; "description"; "proposed_by"; "priority"; "status";
   "steps"; "created_at"; "updated_at"].

Definition excluded : list string :=
  ["id"; "title"; "description"; "proposed_by"; "proposedBy";
   "priority"; "status"; "steps"; "created_at"; "createdAt";
   "updated_at"; "updatedAt"].

Definition from_dict (data : json) : outcome t :=
  got ← py_get data "steps" JNull;
  raw_steps ← py_iter (py_or got (JArr []));
  steps_ ← comprehension ProposalStep.from_dict raw_steps;
  id_ ← py_get data "id" (JStr "");
  title_ ← py_get data "title" (JStr "");
  description_ ← py_get data "description" (JStr "");
  camel ← py_get data "proposedBy" (JStr "");
  proposed_by_ ← py_get data "proposed_by" camel;
  priority_ ← py_get data "priority" (JStr "medium");
  status_ ← py_get data "status" (JStr "pending");
  ca ← py_get data "created_at" JNull;
  created_at_ ← (if truthy ca then Ok ca else py_get data "createdAt" JNull);
  ua ← py_get data "updated_at" JNull;
  updated_at_ ← (if truthy ua then Ok ua else py_get data "updatedAt" JNull);
  metadata_ ← py_items_except data excluded;
  Ok (mk id_ title_ description_ proposed_by_ priority_ status_ steps_
         created_at_ updated_at_ metadata_).

End Proposal.

Module Mission.

Record t := mk {
  id : json;
  title : json;
  description : json;
  status : json;
  proposals : list Proposal.t;
  created_at : json;
  metadata : gmap string json
}.

Definition fields : list string :=
  ["id"; "title"; "description"; "status"; "proposals"; "created_at"].

Definition excluded : list string :=
  ["id"; "title"; "description"; "status"; "proposals";
   "created_at"; "createdAt"].

Definition from_dict (data : json) : outcome t :=
  got ← py_get data "proposals" JNull;
  raw_proposals ← py_iter (py_or got (JArr []));
  proposals_ ← comprehension Proposal.from_dict raw_proposals;
  id_ ← py_get data "id" (JStr "");
  title_ ← py_get data "title" (JStr "");
  description_ ← py_get data "description" (JStr "");
  status_ ← py_get data "status" (JStr "active");
  ca ← py_get data "created_at" JNull;
  created_at_ ← (if truthy ca then Ok ca else py_get data "createdAt" JNull);
  metadata_ ← py_items_except data excluded;
  Ok (mk id_ title_ description_ status_ proposals_ created_at_ metadata_).

End Mission.

(** * client.py *)

(** ** String helpers of the Python standard library *)

Definition in_chars (c : ascii) (chars : string) : bool :=
  existsb (Ascii.eqb c) (list_ascii_of_string chars).

(** [s.lstrip(chars)]: drop the longest prefix made of characters of [chars]. *)
Fixpoint lstrip (chars : string) (s : string) : string :=
  match s with
  | EmptyString => EmptyString
  | String c s' => if in_chars c chars then lstrip chars s' else s
  end.

(** [s.rstrip(chars)]: drop the longest suffix made of characters of [chars]. *)
Fixpoint rstrip (chars : string) (s : string) : string :=
  match s with
  | EmptyString => EmptyString
  | String c s' =>
      match rstrip chars s' with
      | EmptyString => if in_chars c chars then EmptyString else String c EmptyString
      | r => String c r
      end
  end.

(** [s[:n]] *)
Definition prefix_slice (n : nat) (s : string) : string := substring 0 n s.

(** [str(n)] for an integer. *)
Definition str_of_int (n : Z) : string := NilZero.string_of_int (Z.to_int n).

Definition _DEFAULT_TIMEOUT : Z := 30.
Definition _DEFAULT_RETRIES : Z := 3.

(** [XSkynetAPIError.__init__]: both arguments are stored as they are; only
    the exception message carries the body cut to 200 characters. *)
Definition XSkynetAPIError_init (status_code : Z) (response_body : string) : APIError :=
  {| status_code := status_code;
     response_body := response_body;
     message := "API error " ++ str_of_int status_code ++ ": "
                  ++ prefix_slice 200 response_body |}.

(** ** The part of [requests] the client relies on *)

Module Response.

Record t := mk {
  status_code : Z;
  content : list byte;              (* raw body *)
  text : string;                    (* decoded body *)
  parsed : outcome json             (* what [resp.json()] evaluates to *)
}.

(** [Response.ok] of the [requests] library: [raise_for_status()] raises
    for a status in 400..599, and [ok] is [False] exactly then. *)
Definition ok (r : t) : bool :=
  negb ((400 <=? status_code r) && (status_code r <? 600)).

End Response.

Record Request := mkRequest {
  req_method : string;
  req_url : string;
  req_json : option json;
  req_params : option (gmap string json);
  req_timeout : Z
}.

(** The session: fixed headers and the retry policy mounted on both schemes
    (the back-off factor, a float constant, is left out). *)
Record Session := mkSession {
  headers : list (string * string);
  retry_total : Z;
  status_forcelist : list Z;
  allowed_methods : list string
}.

Inductive step_arg : Type :=
  | StepObject (s : ProposalStep.t)          (* isinstance(step, ProposalStep) *)
  | StepDict (d : gmap string json).         (* a plain dict *)

Module XSkynetClient.

Record t := mk {
  base_url : string;
  api_key : string;
  timeout : Z;
  _session : Session
}.

Definition __init__ (base_url api_key : string) (timeout max_retries : Z) : t :=
  {| base_url := rstrip "/" base_url;
     api_key := api_key;
     timeout := timeout;
     _session :=
       {| headers :=
            [("Authorization", "Bearer " ++ api_key);
             ("Content-Type", "application/json");
             ("Accept", "application/json");
             ("User-Agent", "xskynet-sdk-python/0.1.0")];
          retry_total := max_retries;
          status_forcelist := [429; 500; 502; 503; 504];
          allowed_methods := ["GET"; "POST"; "PUT"; "PATCH"; "DELETE"] |} |}.

Definition _url (self : t) (path : string) : string :=
  base_url self ++ "/" ++ lstrip "/" path.

(** The steps loop of [create_proposal]: one [append] per element. *)
Definition serialise_step (step : step_arg) : json :=
  match step with
  | StepObject s => JObj (ProposalStep.to_dict s)
  | StepDict d => JObj d
  end.

Definition serialised_steps (steps : option (list step_arg)) : list json :=
  fold_left (fun acc step => (acc ++ [serialise_step step])%list) (default [] steps) [].

Definition create_proposal_payload (title description proposed_by priority : string)
    (steps : option (list step_arg)) : gmap string json :=
  {[ "title" := JStr title;
     "description" := JStr description;
     "proposed_by" := JStr proposed_by;
     "priority" := JStr priority;
     "steps" := JArr (serialised_steps steps) ]}.

(** [raw = data.get(key, data.get("data", []))] for a dict, the body itself
    for a list, and the initial [[]] for anything else. *)
Definition raw_records (key : string) (data : json) : json :=
  match data with
  | JObj d => dict_get_default d key (dict_get_default d "data" (JArr []))
  | JArr _ => data
  | _ => JArr []
  end.

(** [if isinstance(data, dict) and key in data: data = data[key]] *)
Definition unwrap (key : string) (data : json) : json :=
  match data with
  | JObj d => default data (d !! key)
  | _ => data
  end.

(** The query parameters of [list_proposals]: [limit] always, [status] when
    it is given and not empty. *)
Definition list_proposals_params (status : option string) (limit : Z) : gmap string json :=
  let params : gmap string json := {[ "limit" := JNum limit ]} in
  match status with
  | Some s => if truthy (JStr s) then <[ "status" := JStr s ]> params else params
  | None => params
  end.

Section Transport.

(** [Session.request]: what the server answers to a request, or the
    exception the transport raises. *)
Variable session_request : Session -> Request -> outcome Response.t.

Definition _request (self : t) (method path : string)
    (json_ : option json) (params : option (gmap string json)) : outcome json :=
  let url := _url self path in
  resp ← session_request (_session self)
            (mkRequest method url json_ params (timeout self));
  if negb (Response.ok resp) then
    Raise (XSkynetAPIError
             (XSkynetAPIError_init (Response.status_code resp) (Response.text resp)))
  else if (Response.status_code resp =? 204)
          || match Response.content resp with [] => true | _ => false end then
    Ok JNull
  else Response.parsed resp.

Definition list_agents (self : t) : outcome (list Agent.t) :=
  data ← _request self "GET" "/api/ops/agents" None None;
  raw_agents ← py_iter (raw_records "agents" data);
  comprehension Agent.from_dict raw_agents.

Definition get_agent (self : t) (agent_id : string) : outcome Agent.t :=
  data ← _request self "GET" ("/api/ops/agents/" ++ agent_id) None None;
  Agent.from_dict (unwrap "agent" data).

Definition send_heartbeat (self : t) (agent_id status : string) : outcome json :=
  _request self "POST" ("/api/ops/agents/" ++ agent_id ++ "/heartbeat")
    (Some (JObj {[ "status" := JStr status ]})) None.

Definition create_proposal (self : t) (title description proposed_by priority : string)
    (steps : option (list step_arg)) : outcome Proposal.t :=
  let payload := create_proposal_payload title description proposed_by priority steps in
  data ← _request self "POST" "/api/ops/proposals" (Some (JObj payload)) None;
  Proposal.from_dict (unwrap "proposal" data).

Definition list_proposals (self : t) (status : option string) (limit : Z)
    : outcome (list Proposal.t) :=
  let params := list_proposals_params status limit in
  data ← _request self "GET" "/api/ops/proposals" None (Some params);
  raw ← py_iter (raw_records "proposals" data);
  comprehension Proposal.from_dict raw.

Definition get_proposal (self : t) (proposal_id : string) : outcome Proposal.t :=
  data ← _request self "GET" ("/api/ops/proposals/" ++ proposal_id) None None;
  Proposal.from_dict (unwrap "proposal" data).

Definition get_mission (self : t) (mission_id : string) : outcome Mission.t :=
  data ← _request self "GET" ("/api/ops/missions/" ++ mission_id) None None;
  Mission.from_dict (unwrap "mission" data).

Definition list_missions (self : t) (limit : Z) : outcome (list Mission.t) :=
  data ← _request self "GET" "/api/ops/missions" None
           (Some {[ "limit" := JNum limit ]});
  raw ← py_iter (raw_records "missions" data);
  comprehension Mission.from_dict raw.

End Transport.

End XSkynetClient.


(** * Vocabulary of the properties *)

(** ** Strings *)

Fixpoint last_char (s : string) : option ascii :=
  match s with
  | EmptyString => None
  | String c EmptyString => Some c
  | String _ s' => last_char s'
  end.

Definition first_char (s : string) : option ascii :=
  match s with
  | EmptyString => None
  | String c _ => Some c
  end.

(** A run of [n] slashes. *)
Fixpoint slashes (n : nat) : string :=
  match n with
  | O => EmptyString
  | S n' => String "/" (slashes n')
  end.

(** The wording "exactly one trailing slash is stripped", as a function. *)
Fixpoint strip_one_trailing_slash (s : string) : string :=
  match s with
  | EmptyString => EmptyString
  | String c EmptyString => if Ascii.eqb c "/" then EmptyString else s
  | String c s' => String c (strip_one_trailing_slash s')
  end.

(** The wording "stripping any single leading slash", as a function. *)
Definition strip_one_leading_slash (s : string) : string :=
  match s with
  | String c s' => if Ascii.eqb c "/" then s' else s
  | EmptyString => EmptyString
  end.

(** ** Records *)

(** The camelCase spelling of a snake_case name: every underscore is dropped
    and the letter after it is capitalised. *)
Definition upper (c : ascii) : ascii :=
  let n := nat_of_ascii c in
  if (97 <=? n)%nat && (n <=? 122)%nat then ascii_of_nat (n - 32) else c.

Fixpoint camel_case (s : string) : string :=
  match s with
  | EmptyString => EmptyString
  | String "_" (String c s') => String (upper c) (camel_case s')
  | String c s' => String c (camel_case s')
  end.

(** The keys an entity recognises: its attribute names in either spelling. *)
Definition known_keys (fields : list string) : list string :=
  (fields ++ (camel_case <$> fields))%list.

Definition is_mapping (v : json) : bool :=
  match v with
  | JObj _ => true
  | _ => false
  end.

(** A nested collection the deserialisers can iterate: a list all of whose
    elements the nested constructor accepts, or a falsy value. *)
Definition collection_wellformed (accepts : json -> bool) (v : json) : bool :=
  match v with
  | JArr l => forallb accepts l
  | _ => negb (truthy v)
  end.

(** The [steps] value of a mapping is absent, falsy, or a list of mappings. *)
Definition steps_wellformed (d : gmap string json) : bool :=
  collection_wellformed is_mapping (dict_get d "steps").

Definition proposal_wellformed (v : json) : bool :=
  match v with
  | JObj d => steps_wellformed d
  | _ => false
  end.

(** The [proposals] value of a mapping is absent, falsy, or a list of
    mappings that [Proposal.from_dict] accepts. *)
Definition proposals_wellformed (d : gmap string json) : bool :=
  collection_wellformed proposal_wellformed (dict_get d "proposals").

(** Applying a function to the value of a successful computation. *)
#[global] Instance outcome_fmap : FMap outcome := fun A B f r =>
  match r with
  | Ok a => Ok (f a)
  | Raise e => Raise e
  end.

(** ** Dual-named fields

    [from_dict] is an entity deserialiser, [attr] one of its attributes and
    [snake], [camel] the two keys the attribute is read from. *)

Section DualNaming.
Context {R : Type} (from_dict : json -> outcome R) (attr : R -> json).
Variables snake camel : string.

(** Both keys present: the attribute is the snake_case value. *)
Definition snake_wins : Prop :=
  forall (d : gmap string json) a b r,
    d !! snake = Some a -> d !! camel = Some b ->
    from_dict (JObj d) = Ok r -> attr r = a.

(** Both keys present and the snake_case value truthy: the attribute is the
    snake_case value. *)
Definition snake_wins_if_truthy : Prop :=
  forall (d : gmap string json) a b r,
    d !! snake = Some a -> d !! camel = Some b -> truthy a = true ->
    from_dict (JObj d) = Ok r -> attr r = a.

(** Both keys present and the snake_case value falsy: the attribute is the
    camelCase value. *)
Definition camel_if_falsy : Prop :=
  forall (d : gmap string json) a b r,
    d !! snake = Some a -> d !! camel = Some b -> truthy a = false ->
    from_dict (JObj d) = Ok r -> attr r = b.

(** Only one of the keys present: either spelling gives the same attribute. *)
Definition spellings_agree : Prop :=
  forall (d : gmap string json) v,
    d !! snake = None -> d !! camel = None ->
    attr <$> from_dict (JObj (<[snake := v]> d))
      = attr <$> from_dict (JObj (<[camel := v]> d)).

(** The same for a value that is truthy or null. *)
Definition spellings_agree_if_truthy_or_null : Prop :=
  forall (d : gmap string json) v,
    d !! snake = None -> d !! camel = None ->
    truthy v = true \/ v = JNull ->
    attr <$> from_dict (JObj (<[snake := v]> d))
      = attr <$> from_dict (JObj (<[camel := v]> d)).

End DualNaming.

(** ** Response shapes of the list operations

    [res] is what a list operation returns for the parsed body [body], [key]
    the entity-specific wrapper key and [from_dict] the entity constructor. *)
Definition list_rule {A} (key : string) (from_dict : json -> outcome A)
    (body : json) (res : outcome (list A)) : Prop :=
  (forall (d : gmap string json) l,
     body = JObj d -> d !! key = Some (JArr l) -> res = comprehension from_dict l)
  /\ (forall (d : gmap string json) l,
        body = JObj d -> d !! key = None -> d !! "data" = Some (JArr l) ->
        res = comprehension from_dict l)
  /\ (forall d : gmap string json,
        body = JObj d -> d !! key = None -> d !! "data" = None -> res = Ok [])
  /\ (forall l, body = JArr l -> res = comprehension from_dict l).

(** The request [create_proposal] hands to the session. *)
Definition create_proposal_request (self : XSkynetClient.t)
    (title description proposed_by priority : string)
    (steps : option (list step_arg)) : Request :=
  mkRequest "POST" (XSkynetClient._url self "/api/ops/proposals")
    (Some (JObj {[ "title" := JStr title;
                   "description" := JStr description;
                   "proposed_by" := JStr proposed_by;
                   "priority" := JStr priority;
                   "steps" := JArr (XSkynetClient.serialise_step <$> default [] steps) ]}))
    None (XSkynetClient.timeout self).

(** ** Extra fields

    [md] holds every key of [d] that is not one of [fields] in either
    spelling, with the value it has in [d], and none of those that are. *)
Definition collects_unknown (fields : list string) (md d : gmap string json) : Prop :=
  forall k : string,
    (k ∉ known_keys fields -> md !! k = d !! k)
    /\ (k ∈ known_keys fields -> md !! k = None).

(** ** Sample payloads *)

Definition agent_falsy_snake : gmap string json :=
  {[ "id" := JStr "scout";
     "last_heartbeat" := JStr "";
     "lastHeartbeat" := JStr "2026-02-23T00:00:00Z" ]}.

Definition agent_only_snake : gmap string json :=
  {[ "id" := JStr "scout"; "last_heartbeat" := JStr "" ]}.

Definition agent_only_camel : gmap string json :=
  {[ "id" := JStr "scout"; "lastHeartbeat" := JStr "" ]}.

Definition proposal_both_spellings : gmap string json :=
  {[ "title" := JStr "Plan";
     "proposed_by" := JStr "nova";
     "proposedBy" := JStr "sage";
     "created_at" := JStr "2026-01-01T00:00:00Z";
     "createdAt" := JStr "2026-01-02T00:00:00Z" ]}.

Definition proposal_with_steps : gmap string json :=
  {[ "id" := JStr "prop-001";
     "steps" := JArr [ JObj {[ "title" := JStr "S1"; "assignedTo" := JStr "scout" ]};
                       JObj {[ "title" := JStr "S2"; "assigned_to" := JStr "quill" ]} ];
     "team" := JStr "red" ]}.

Definition mission_with_proposals : gmap string json :=
  {[ "id" := JStr "mission-42";
     "proposals" := JArr [ JObj proposal_with_steps; JObj ∅ ] ]}.

Definition proposal_bad_steps : gmap string json :=
  {[ "id" := JStr "prop-002"; "steps" := JNum 5 ]}.

Definition mission_bad_proposals : gmap string json :=
  {[ "id" := JStr "mission-43"; "proposals" := JArr [ JObj proposal_bad_steps ] ]}.

Definition client : XSkynetClient.t :=
  XSkynetClient.__init__ "https://test.x-skynet.ai" "test-api-key-12345"
    _DEFAULT_TIMEOUT 0.

(** A session that answers every request with the same response. *)
Definition answer (r : Response.t) : Session -> Request -> outcome Response.t :=
  fun _ _ => Ok r.

(** JSON text: a quoted string and an object member with a string value. *)
Definition quoted (s : string) : string :=
  String (ascii_of_nat 34) s ++ String (ascii_of_nat 34) EmptyString.

Definition member (k v : string) : string := quoted k ++ ": " ++ quoted v.

(** A session that serves POST requests only. *)
Definition post_only (r : Response.t) : Session -> Request -> outcome Response.t :=
  fun _ req => if String.eqb (req_method req) "POST" then Ok r else Raise TransportError.

Definition json_response (status : Z) (text : string) (body : json) : Response.t :=
  Response.mk status (list_byte_of_string text) text (Ok body).

Definition agents_body : json :=
  JObj {[ "agents" :=
            JArr [ JObj {[ "id" := JStr "scout"; "name" := JStr "Scout";
                           "status" := JStr "healthy" ]};
                   JObj {[ "id" := JStr "minion"; "name" := JStr "Minion";
                           "status" := JStr "idle" ]} ] ]}.

Definition agents_response : Response.t :=
  json_response 200
    ("{" ++ quoted "agents" ++ ": [{"
       ++ member "id" "scout" ++ ", " ++ member "name" "Scout" ++ ", "
       ++ member "status" "healthy" ++ "}, {"
       ++ member "id" "minion" ++ ", " ++ member "name" "Minion" ++ ", "
       ++ member "status" "idle" ++ "}]}")
    agents_body.

(** 304 Not Modified: no body. *)
Definition not_modified_response : Response.t :=
  Response.mk 304 [] "" (Raise JSONDecodeError).

(** 300 Multiple Choices with a JSON body. *)
Definition multiple_choices_response : Response.t :=
  json_response 300 ("{" ++ quoted "agents" ++ ": []}") (JObj {[ "agents" := JArr [] ]}).

Definition forbidden_response : Response.t :=
  json_response 403 ("{" ++ member "error" "Forbidden" ++ "}")
    (JObj {[ "error" := JStr "Forbidden" ]}).

Definition created_response : Response.t :=
  Response.mk 201 (list_byte_of_string "{}") "{}" (Ok (JObj ∅)).

(** A raw step that carries more than the three wire keys. *)
Definition raw_step_with_status : gmap string json :=
  {[ "title" := JStr "S1"; "assigned_to" := JStr "scout"; "prompt" := JStr "Go";
     "status" := JStr "done" ]}.

Definition agent_with_extras : gmap string json :=
  {[ "id" := JStr "scout"; "status" := JStr "healthy";
     "lastHeartbeat" := JStr "2026-02-23T00:00:00Z";
     "region" := JStr "eu"; "tags" := JArr [ JStr "fast" ] ]}.

Definition mission_with_extras : gmap string json :=
  {[ "id" := JStr "mission-44";
     "proposals" := JArr [ JObj proposal_with_steps ];
     "createdAt" := JStr "2026-01-01T00:00:00Z";
     "owner" := JStr "nova" ]}.

(** ** Requests of the public operations *)

(** An operation, given as a function of the session's [request] method,
    consults the session through the request [req] only: two sessions
    that treat [req] alike make it return alike. *)
Definition only_consults {A}
    (op : (Session -> Request -> outcome Response.t) -> outcome A)
    (self : XSkynetClient.t) (req : Request) : Prop :=
  forall T1 T2 : Session -> Request -> outcome Response.t,
    T1 (XSkynetClient._session self) req = T2 (XSkynetClient._session self) req ->
    op T1 = op T2.

(** What the deserialiser makes of a step as [create_proposal] sends it. *)
Definition sent_step (step : step_arg) : ProposalStep.t :=
  match step with
  | StepObject s =>
      ProposalStep.mk (ProposalStep.title s) (ProposalStep.assigned_to s)
        (ProposalStep.prompt s) (JStr "pending") JNull
  | StepDict d =>
      ProposalStep.mk
        (dict_get_default d "title" (JStr ""))
        (dict_get_default d "assigned_to" (dict_get_default d "assignedTo" (JStr "")))
        (dict_get_default d "prompt" (JStr ""))
        (dict_get_default d "status" (JStr "pending"))
        (dict_get_default d "result" JNull)
  end.

(** The operation result [r] is the API error built from the response. *)
Definition raises_api_error {A} (r : outcome A) (resp : Response.t) : Prop :=
  r = Raise (XSkynetAPIError
               (XSkynetAPIError_init (Response.status_code resp) (Response.text resp))).

(** Response shapes of the single-record operations: [res] is what the
    operation returns for the parsed body [body], [key] the wrapper key. *)
Definition get_rule {A} (key : string) (from_dict : json -> outcome A)
    (body : json) (res : outcome A) : Prop :=
  (forall (d : gmap string json) v,
     body = JObj d -> d !! key = Some v -> res = from_dict v)
  /\ (forall d : gmap string json,
        body = JObj d -> d !! key = None -> res = from_dict body)
  /\ (is_mapping body = false -> res = from_dict body).

Definition mission_body : json :=
  JObj {[ "mission" :=
            JObj {[ "id" := JStr "m-007"; "title" := JStr "Alpha";
                    "proposals" := JArr [] ]} ]}.

Definition mission_response : Response.t :=
  json_response 200
    ("{" ++ quoted "mission" ++ ": {" ++ member "id" "m-007" ++ ", "
       ++ member "title" "Alpha" ++ ", " ++ quoted "proposals" ++ ": []}}")
    mission_body.

(** 204 No Content that nevertheless carries a body. *)
Definition no_content_response : Response.t :=
  json_response 204 "{}" (JObj ∅).

(** A session whose transport always fails. *)
Definition unreachable : Session -> Request -> outcome Response.t :=
  fun _ _ => Raise TransportError.

(** A bare list whose second record has no [id]. *)
Definition agents_one_bad : json :=
  JArr ([ JObj {[ "id" := JStr "scout" ]} ]
          ++ JObj {[ "name" := JStr "Minion" ]} :: [ JObj {[ "id" := JStr "sage" ]} ]).

Definition agent_minimal : gmap string json := {[ "id" := JStr "x" ]}.

(** A proposal whose priority is a number. *)
Definition proposal_bad_priority : gmap string json :=
  {[ "id" := JStr "prop-003"; "priority" := JNum 7 ]}.

(** A value that cannot be iterated. *)
Definition not_iterable (v : json) : bool :=
  match v with
  | JNull | JBool _ | JNum _ | JFloat _ => true
  | _ => false
  end.

(** A body that is neither a mapping nor a list. *)
Definition is_scalar (body : json) : bool :=
  match body with
  | JObj _ | JArr _ => false
  | _ => true
  end.

(** Edge cases of the list operations: [res] is what the operation returns
    for the parsed body [body], [key] the entity-specific wrapper key. *)
Definition list_edge_rule {A} (key : string) (body : json) (res : outcome (list A)) : Prop :=
  (is_scalar body = true -> res = Ok [])
  /\ (forall (d : gmap string json) v,
        body = JObj d -> d !! key = Some v -> not_iterable v = true ->
        res = Raise TypeError)
  /\ (forall (d : gmap string json) v,
        body = JObj d -> d !! key = None -> d !! "data" = Some v -> not_iterable v = true ->
        res = Raise TypeError).

Definition agents_null_body : json :=
  JObj {[ "agents" := JNull; "data" := JArr [ JObj {[ "id" := JStr "scout" ]} ] ]}.

Definition agents_null_response : Response.t :=
  json_response 200 ("{" ++ quoted "agents" ++ ": null}") agents_null_body.

Definition agents_one_bad_response : Response.t :=
  json_response 200
    ("[{" ++ member "id" "scout" ++ "}, {" ++ member "name" "Minion" ++ "}, {"
       ++ member "id" "sage" ++ "}]")
    agents_one_bad.

(** Proposals whose [steps] is the number 0, and a non-empty string. *)
Definition proposal_zero_steps : gmap string json :=
  {[ "id" := JStr "prop-004"; "steps" := JNum 0 ]}.

Definition proposal_text_steps : gmap string json :=
  {[ "id" := JStr "prop-005"; "steps" := JStr "later" ]}.

(** * Properties *)

(** ** Strings: what [lstrip] and [rstrip] remove and leave behind *)

Section Strip.

Lemma in_chars_slash c : in_chars c "/" = true <-> c = "/"%char.
Proof.
  unfold in_chars; simpl. rewrite orb_false_r. apply Ascii.eqb_eq.
Qed.

Lemma in_chars_slash_false c : in_chars c "/" = false <-> c <> "/"%char.
Proof.
  rewrite <- in_chars_slash. destruct (in_chars c "/"); split; congruence.
Qed.

Lemma append_nil_l (s : string) : "" ++ s = s.
Proof. reflexivity. Qed.

Lemma append_cons c (s t : string) : String c s ++ t = String c (s ++ t).
Proof. reflexivity. Qed.

Lemma append_nil_r (s : string) : s ++ "" = s.
Proof.
  induction s as [|c s IH]; [reflexivity |]. now rewrite append_cons, IH.
Qed.

Lemma last_char_cons c s : s <> "" -> last_char (String c s) = last_char s.
Proof. destruct s; [congruence | reflexivity]. Qed.

Lemma lstrip_slash_spec path :
  exists n, path = slashes n ++ lstrip "/" path
            /\ first_char (lstrip "/" path) <> Some "/"%char.
Proof.
  induction path as [|c p (n & Hp & Hf)].
  - exists O. split; [reflexivity | discriminate].
  - simpl. destruct (in_chars c "/") eqn:E.
    + apply in_chars_slash in E. subst c. exists (S n).
      split; [simpl; rewrite append_cons; congruence | exact Hf].
    + apply in_chars_slash_false in E. exists O.
      split; [reflexivity|]. simpl. congruence.
Qed.

Lemma rstrip_slash_spec s :
  exists n, s = rstrip "/" s ++ slashes n
            /\ last_char (rstrip "/" s) <> Some "/"%char.
Proof.
  induction s as [|c s (n & Hs & Hl)].
  - exists O. split; [reflexivity | discriminate].
  - simpl. destruct (rstrip "/" s) as [|a r] eqn:Er.
    + rewrite append_nil_l in Hs. destruct (in_chars c "/") eqn:E.
      * apply in_chars_slash in E. subst c. exists (S n).
        split; [rewrite append_nil_l; simpl; congruence | discriminate].
      * apply in_chars_slash_false in E. exists n.
        split; [rewrite append_cons, append_nil_l; congruence | simpl; congruence].
    + exists n. split; [rewrite append_cons; congruence |].
      rewrite last_char_cons by discriminate. exact Hl.
Qed.

Lemma rstrip_fixed s : last_char s <> Some "/"%char -> rstrip "/" s = s.
Proof.
  induction s as [|c s IH]; [reflexivity |]. intros H. simpl.
  destruct s as [|a s'].
  - simpl in *. destruct (in_chars c "/") eqn:E; [|reflexivity].
    apply in_chars_slash in E. congruence.
  - rewrite IH by exact H. reflexivity.
Qed.

Lemma rstrip_one_slash s : last_char s <> Some "/"%char -> rstrip "/" (s ++ "/") = s.
Proof.
  induction s as [|c s IH]; [reflexivity |]. intros H.
  rewrite append_cons. simpl.
  destruct s as [|a s'].
  - rewrite append_nil_l. simpl in *. destruct (in_chars c "/") eqn:E; [|reflexivity].
    apply in_chars_slash in E. congruence.
  - rewrite IH by exact H. reflexivity.
Qed.

End Strip.

(** ** Client construction and URL resolution *)

Module UrlProps.
Import XSkynetClient.

(** C4, as stated, fails: a base URL that ends in two slashes loses both,
    where stripping exactly one would keep the first. *)
Lemma base_url_two_trailing_slashes :
  base_url (__init__ "https://example.com//" "k" 30 3) = "https://example.com"
  /\ strip_one_trailing_slash "https://example.com//" = "https://example.com/"
  /\ base_url (__init__ "https://example.com//" "k" 30 3)
       <> strip_one_trailing_slash "https://example.com//".
Proof. repeat split; try reflexivity. vm_compute. discriminate. Qed.

(** C4 (amended): the stored base URL is the argument without its whole run
    of trailing slashes, so it never ends in a slash; an argument with no
    trailing slash is stored unchanged, one with a single trailing slash
    loses exactly that slash, and ["https://example.com/"] is stored as
    ["https://example.com"]. *)
Theorem base_url_rstrip (b k : string) (t r : Z) :
  (exists n, b = base_url (__init__ b k t r) ++ slashes n)
  /\ last_char (base_url (__init__ b k t r)) <> Some "/"%char
  /\ (last_char b <> Some "/"%char -> base_url (__init__ b k t r) = b)
  /\ (last_char b <> Some "/"%char -> base_url (__init__ (b ++ "/") k t r) = b)
  /\ base_url (__init__ "https://example.com/" k t r) = "https://example.com".
Proof.
  simpl. destruct (rstrip_slash_spec b) as (n & Hb & Hl).
  split; [exists n; exact Hb |].
  split; [exact Hl |].
  split; [apply rstrip_fixed |].
  split; [apply rstrip_one_slash | reflexivity].
Qed.

Lemma base_url_rstrip_witness :
  base_url (__init__ "https://example.com" "k" 30 3) = "https://example.com"
  /\ base_url (__init__ ("https://example.com" ++ "/") "k" 30 3) = "https://example.com".
Proof.
  destruct (base_url_rstrip "https://example.com" "k" 30 3) as (_ & _ & H1 & H2 & _).
  split; [apply H1 | apply H2]; vm_compute; discriminate.
Defined.

(** C9, as stated, fails: for a path with two leading slashes the code
    drops both, where stripping a single one would leave a double slash at
    the join. *)
Lemma url_two_leading_slashes :
  _url (__init__ "https://example.com" "k" 30 3) "//api/ops/agents"
    = "https://example.com/api/ops/agents"
  /\ "https://example.com" ++ "/" ++ strip_one_leading_slash "//api/ops/agents"
    = "https://example.com//api/ops/agents"
  /\ _url (__init__ "https://example.com" "k" 30 3) "//api/ops/agents"
    <> "https://example.com" ++ "/" ++ strip_one_leading_slash "//api/ops/agents".
Proof. repeat split; try reflexivity. vm_compute. discriminate. Qed.

(** C9 (amended): the URL is the stored base, one slash, and the path
    without its whole run of leading slashes; what follows the inserted
    slash never starts with a slash and the stored base of a constructed
    client never ends with one, so the join has exactly one slash.  A path
    with at most one leading slash loses exactly that slash. *)
Theorem url_join (b k : string) (t r : Z) (path : string) :
  exists n rest,
    path = slashes n ++ rest
    /\ first_char rest <> Some "/"%char
    /\ _url (__init__ b k t r) path = base_url (__init__ b k t r) ++ "/" ++ rest
    /\ last_char (base_url (__init__ b k t r)) <> Some "/"%char
    /\ (first_char (strip_one_leading_slash path) <> Some "/"%char ->
        rest = strip_one_leading_slash path).
Proof.
  destruct (lstrip_slash_spec path) as (n & Hp & Hf).
  exists n, (lstrip "/" path).
  split; [exact Hp |]. split; [exact Hf |]. split; [reflexivity |].
  split; [simpl; destruct (rstrip_slash_spec b) as (? & _ & Hl); exact Hl |].
  destruct path as [|c p]; [reflexivity |]. simpl.
  destruct (in_chars c "/") eqn:E.
  - apply in_chars_slash in E. subst c. simpl. intros H.
    destruct p as [|c' p']; [reflexivity |]. simpl in *.
    destruct (in_chars c' "/") eqn:E'; [|reflexivity].
    apply in_chars_slash in E'. congruence.
  - intros _. apply in_chars_slash_false in E.
    destruct (Ascii.eqb_spec c "/"); [congruence | reflexivity].
Qed.

Lemma url_join_witness :
  _url (__init__ "https://example.com/" "k" 30 3) "/api/ops/agents"
    = "https://example.com/api/ops/agents".
Proof.
  destruct (url_join "https://example.com/" "k" 30 3 "/api/ops/agents")
    as (n & rest & _ & _ & Hu & _ & Hr).
  rewrite Hu, Hr; [reflexivity |]. vm_compute. discriminate.
Defined.

End UrlProps.

(** ** List comprehensions *)

Section Comprehension.
Context {A B : Type} (f : A -> outcome B).

Lemma comprehension_cons x l :
  comprehension f (x :: l) = (y ← f x; ys ← comprehension f l; Ok (y :: ys)).
Proof. reflexivity. Qed.

(** A comprehension succeeds with [ys] exactly when [ys] lists the results
    of [f] on the elements, position by position. *)
Lemma comprehension_Ok_iff l ys :
  comprehension f l = Ok ys <-> Forall2 (fun x y => f x = Ok y) l ys.
Proof.
  revert ys. induction l as [|x l IH]; intros ys; simpl.
  - split; [intros [= <-]; constructor | intros H; inversion H; reflexivity].
  - split.
    + destruct (f x) as [y|e] eqn:Ex; simpl; [|discriminate].
      destruct (comprehension f l) as [zs|e] eqn:El; simpl; [|discriminate].
      intros [= <-]. constructor; [exact Ex | now apply IH].
    + intros H. inversion H as [|? y ? zs Hx Hl]; subst.
      rewrite Hx. simpl. apply IH in Hl. rewrite Hl. reflexivity.
Qed.

Lemma comprehension_total l :
  Forall (fun x => exists y, f x = Ok y) l -> exists ys, comprehension f l = Ok ys.
Proof.
  induction 1 as [|x l [y Hy] _ [ys Hys]]; simpl; [eauto |].
  rewrite Hy; simpl. rewrite Hys; simpl. eauto.
Qed.

Lemma comprehension_Ok_each l ys :
  comprehension f l = Ok ys -> Forall (fun x => exists y, f x = Ok y) l.
Proof.
  intros H. apply comprehension_Ok_iff in H.
  induction H; constructor; eauto.
Qed.

End Comprehension.

(** ** ProposalStep *)

Lemma ProposalStep_from_dict_obj (d : gmap string json) :
  ProposalStep.from_dict (JObj d) =
    Ok (ProposalStep.mk
          (dict_get_default d "title" (JStr ""))
          (dict_get_default d "assigned_to" (dict_get_default d "assignedTo" (JStr "")))
          (dict_get_default d "prompt" (JStr ""))
          (dict_get_default d "status" (JStr "pending"))
          (dict_get_default d "result" JNull)).
Proof. reflexivity. Qed.

(** C5: for every mapping [d], deserialising and serialising again gives a
    mapping whose keys are exactly [title], [assigned_to] and [prompt], each
    holding the value the deserialiser resolved; [status] and [result] are
    not emitted. *)
Theorem step_to_dict_from_dict_keys (d : gmap string json) :
  exists s,
    ProposalStep.from_dict (JObj d) = Ok s
    /\ dom (ProposalStep.to_dict s) = ({[ "title"; "assigned_to"; "prompt" ]} : gset string)
    /\ ProposalStep.to_dict s !! "status" = None
    /\ ProposalStep.to_dict s !! "result" = None
    /\ ProposalStep.to_dict s !! "title" = Some (dict_get_default d "title" (JStr ""))
    /\ ProposalStep.to_dict s !! "assigned_to"
         = Some (dict_get_default d "assigned_to" (dict_get_default d "assignedTo" (JStr "")))
    /\ ProposalStep.to_dict s !! "prompt" = Some (dict_get_default d "prompt" (JStr "")).
Proof.
  eexists. split; [apply ProposalStep_from_dict_obj |].
  unfold ProposalStep.to_dict; simpl.
  split; [rewrite !dom_insert_L, dom_singleton_L; set_solver |].
  repeat split; reflexivity.
Qed.

(** ** The deserialisers on a mapping *)

Lemma without_keys_lookup names (d : gmap string json) k :
  without_keys names d !! k = if not_in k names then d !! k else None.
Proof.
  unfold without_keys. destruct (not_in k names) eqn:E.
  - apply option_eq. intros v. rewrite map_lookup_filter_Some. simpl. tauto.
  - apply map_lookup_filter_None. right. intros v _. simpl. congruence.
Qed.

Lemma not_in_true k names : not_in k names = true <-> k ∉ names.
Proof.
  unfold not_in. rewrite negb_true_iff, <- not_true_iff_false, existsb_exists.
  split.
  - intros H Hin. apply H. exists k. split; [now apply list_elem_of_In | apply String.eqb_refl].
  - intros H (x & Hx & Heq). apply String.eqb_eq in Heq. subst x.
    apply H. now apply list_elem_of_In.
Qed.

Lemma without_keys_spec names (d : gmap string json) k :
  (k ∉ names -> without_keys names d !! k = d !! k)
  /\ (k ∈ names -> without_keys names d !! k = None).
Proof.
  rewrite without_keys_lookup. split; intros H.
  - apply not_in_true in H. now rewrite H.
  - destruct (not_in k names) eqn:E; [|reflexivity].
    apply not_in_true in E. contradiction.
Qed.

Lemma Agent_from_dict_obj (d : gmap string json) :
  Agent.from_dict (JObj d) =
    match d !! "id" with
    | None => Raise (KeyError "id")
    | Some i =>
        Ok (Agent.mk i
              (dict_get_default d "name" i)
              (dict_get_default d "status" (JStr "unknown"))
              (dict_get_default d "role" (JStr ""))
              (dict_get_default d "model" (JStr ""))
              (py_or (dict_get d "last_heartbeat") (dict_get d "lastHeartbeat"))
              (without_keys Agent.excluded d))
    end.
Proof.
  unfold Agent.from_dict; simpl. destruct (d !! "id") as [i|]; simpl; [|reflexivity].
  unfold py_or, dict_get, dict_get_default.
  destruct (truthy (default JNull (d !! "last_heartbeat"))); reflexivity.
Qed.

(** What [Proposal.from_dict] does with the [steps] value of a mapping. *)
Lemma Proposal_from_dict_obj (d : gmap string json) :
  Proposal.from_dict (JObj d) =
    (raw_steps ← py_iter (py_or (dict_get d "steps") (JArr []));
     steps ← comprehension ProposalStep.from_dict raw_steps;
     Ok (Proposal.mk
           (dict_get_default d "id" (JStr ""))
           (dict_get_default d "title" (JStr ""))
           (dict_get_default d "description" (JStr ""))
           (dict_get_default d "proposed_by" (dict_get_default d "proposedBy" (JStr "")))
           (dict_get_default d "priority" (JStr "medium"))
           (dict_get_default d "status" (JStr "pending"))
           steps
           (py_or (dict_get d "created_at") (dict_get d "createdAt"))
           (py_or (dict_get d "updated_at") (dict_get d "updatedAt"))
           (without_keys Proposal.excluded d))).
Proof.
  unfold Proposal.from_dict; simpl. fold (dict_get d "steps").
  destruct (py_iter _) as [raw|e]; simpl; [|reflexivity].
  destruct (comprehension _ raw) as [steps|e]; simpl; [|reflexivity].
  unfold py_or, dict_get, dict_get_default.
  destruct (truthy (default JNull (d !! "created_at")));
    destruct (truthy (default JNull (d !! "updated_at"))); reflexivity.
Qed.

Lemma Mission_from_dict_obj (d : gmap string json) :
  Mission.from_dict (JObj d) =
    (raw_proposals ← py_iter (py_or (dict_get d "proposals") (JArr []));
     proposals ← comprehension Proposal.from_dict raw_proposals;
     Ok (Mission.mk
           (dict_get_default d "id" (JStr ""))
           (dict_get_default d "title" (JStr ""))
           (dict_get_default d "description" (JStr ""))
           (dict_get_default d "status" (JStr "active"))
           proposals
           (py_or (dict_get d "created_at") (dict_get d "createdAt"))
           (without_keys Mission.excluded d))).
Proof.
  unfold Mission.from_dict; simpl. fold (dict_get d "proposals").
  destruct (py_iter _) as [raw|e]; simpl; [|reflexivity].
  destruct (comprehension _ raw) as [ps|e]; simpl; [|reflexivity].
  unfold py_or, dict_get, dict_get_default.
  destruct (truthy (default JNull (d !! "created_at"))); reflexivity.
Qed.

(** Inversion of a successful [Proposal.from_dict] / [Mission.from_dict]. *)
Lemma Proposal_from_dict_Ok (d : gmap string json) p :
  Proposal.from_dict (JObj d) = Ok p ->
  exists raw_steps,
    py_iter (py_or (dict_get d "steps") (JArr [])) = Ok raw_steps
    /\ comprehension ProposalStep.from_dict raw_steps = Ok (Proposal.steps p)
    /\ Proposal.id p = dict_get_default d "id" (JStr "")
    /\ Proposal.title p = dict_get_default d "title" (JStr "")
    /\ Proposal.description p = dict_get_default d "description" (JStr "")
    /\ Proposal.proposed_by p
         = dict_get_default d "proposed_by" (dict_get_default d "proposedBy" (JStr ""))
    /\ Proposal.priority p = dict_get_default d "priority" (JStr "medium")
    /\ Proposal.status p = dict_get_default d "status" (JStr "pending")
    /\ Proposal.created_at p = py_or (dict_get d "created_at") (dict_get d "createdAt")
    /\ Proposal.updated_at p = py_or (dict_get d "updated_at") (dict_get d "updatedAt")
    /\ Proposal.metadata p = without_keys Proposal.excluded d.
Proof.
  rewrite Proposal_from_dict_obj.
  destruct (py_iter _) as [raw|e] eqn:Er; simpl; [|discriminate].
  destruct (comprehension _ raw) as [steps|e] eqn:Ec; simpl; [|discriminate].
  intros [= <-]. exists raw. simpl. repeat split; assumption || reflexivity.
Qed.

Lemma Mission_from_dict_Ok (d : gmap string json) m :
  Mission.from_dict (JObj d) = Ok m ->
  exists raw_proposals,
    py_iter (py_or (dict_get d "proposals") (JArr [])) = Ok raw_proposals
    /\ comprehension Proposal.from_dict raw_proposals = Ok (Mission.proposals m)
    /\ Mission.id m = dict_get_default d "id" (JStr "")
    /\ Mission.title m = dict_get_default d "title" (JStr "")
    /\ Mission.description m = dict_get_default d "description" (JStr "")
    /\ Mission.status m = dict_get_default d "status" (JStr "active")
    /\ Mission.created_at m = py_or (dict_get d "created_at") (dict_get d "createdAt")
    /\ Mission.metadata m = without_keys Mission.excluded d.
Proof.
  rewrite Mission_from_dict_obj.
  destruct (py_iter _) as [raw|e] eqn:Er; simpl; [|discriminate].
  destruct (comprehension _ raw) as [ps|e] eqn:Ec; simpl; [|discriminate].
  intros [= <-]. exists raw. simpl. repeat split; assumption || reflexivity.
Qed.

Lemma Agent_from_dict_Ok (d : gmap string json) a :
  Agent.from_dict (JObj d) = Ok a ->
  exists i,
    d !! "id" = Some i
    /\ Agent.id a = i
    /\ Agent.name a = dict_get_default d "name" i
    /\ Agent.status a = dict_get_default d "status" (JStr "unknown")
    /\ Agent.role a = dict_get_default d "role" (JStr "")
    /\ Agent.model a = dict_get_default d "model" (JStr "")
    /\ Agent.last_heartbeat a
         = py_or (dict_get d "last_heartbeat") (dict_get d "lastHeartbeat")
    /\ Agent.metadata a = without_keys Agent.excluded d.
Proof.
  rewrite Agent_from_dict_obj. destruct (d !! "id") as [i|]; [|discriminate].
  intros [= <-]. exists i. simpl. repeat split; reflexivity.
Qed.

(** ** Field resolution under the two naming conventions *)

Section Lookups.
Context (d : gmap string json).

Lemma dict_get_insert_eq k v : dict_get (<[k := v]> d) k = v.
Proof. unfold dict_get. now rewrite lookup_insert_eq. Qed.

Lemma dict_get_insert_ne k k' v : k <> k' -> dict_get (<[k := v]> d) k' = dict_get d k'.
Proof. intros H. unfold dict_get. now rewrite lookup_insert_ne. Qed.

Lemma dict_get_default_insert_eq k v dflt : dict_get_default (<[k := v]> d) k dflt = v.
Proof. unfold dict_get_default. now rewrite lookup_insert_eq. Qed.

Lemma dict_get_default_insert_ne k k' v dflt :
  k <> k' -> dict_get_default (<[k := v]> d) k' dflt = dict_get_default d k' dflt.
Proof. intros H. unfold dict_get_default. now rewrite lookup_insert_ne. Qed.

Lemma dict_get_Some k v : d !! k = Some v -> dict_get d k = v.
Proof. unfold dict_get. now intros ->. Qed.

Lemma dict_get_None k : d !! k = None -> dict_get d k = JNull.
Proof. unfold dict_get. now intros ->. Qed.

Lemma dict_get_default_Some k v dflt : d !! k = Some v -> dict_get_default d k dflt = v.
Proof. unfold dict_get_default. now intros ->. Qed.

Lemma dict_get_default_None k dflt : d !! k = None -> dict_get_default d k dflt = dflt.
Proof. unfold dict_get_default. now intros ->. Qed.

End Lookups.

Lemma py_or_truthy a b : truthy a = true -> py_or a b = a.
Proof. unfold py_or. now intros ->. Qed.

Lemma py_or_falsy a b : truthy a = false -> py_or a b = b.
Proof. unfold py_or. now intros ->. Qed.

(** [a or None] and [None or a] coincide for a truthy or null [a]. *)
Lemma py_or_null_comm v : truthy v = true \/ v = JNull -> py_or v JNull = py_or JNull v.
Proof.
  intros [H | ->]; [|reflexivity]. now rewrite py_or_truthy, py_or_falsy.
Qed.

Create Rewrite HintDb dict.
#[local] Hint Rewrite dict_get_insert_eq dict_get_default_insert_eq : dict.
#[local] Hint Rewrite dict_get_insert_ne dict_get_default_insert_ne
  using discriminate : dict.

Ltac dict_simpl :=
  repeat first
    [ progress autorewrite with dict
    | erewrite dict_get_Some by eassumption
    | erewrite dict_get_None by eassumption
    | erewrite dict_get_default_Some by eassumption
    | erewrite dict_get_default_None by eassumption ].

(** The exclusion filter does not depend on which values the keys hold, and
    both spellings of a dual-named field are excluded, so the two inputs of
    [spellings_agree] differ in nothing else the deserialisers look at. *)

Lemma agent_last_heartbeat_agree :
  spellings_agree_if_truthy_or_null Agent.from_dict Agent.last_heartbeat
    "last_heartbeat" "lastHeartbeat".
Proof.
  intros d v Hs Hc Hv. rewrite !Agent_from_dict_obj.
  rewrite !lookup_insert_ne by discriminate.
  destruct (d !! "id") as [i|]; [|reflexivity]. simpl. f_equal.
  dict_simpl. now apply py_or_null_comm.
Qed.

Lemma step_assigned_to_agree :
  spellings_agree ProposalStep.from_dict ProposalStep.assigned_to
    "assigned_to" "assignedTo".
Proof.
  intros d v Hs Hc. rewrite !ProposalStep_from_dict_obj. simpl. f_equal.
  now dict_simpl.
Qed.

Lemma proposal_steps_insert (d : gmap string json) k v :
  k <> "steps" -> dict_get (<[k := v]> d) "steps" = dict_get d "steps".
Proof. apply dict_get_insert_ne. Qed.

Ltac proposal_prefix :=
  rewrite !Proposal_from_dict_obj;
  rewrite !proposal_steps_insert by discriminate;
  destruct (py_iter _) as [raw|e]; simpl; [|reflexivity];
  destruct (comprehension _ raw) as [steps|e]; simpl; [|reflexivity];
  f_equal.

Lemma proposal_proposed_by_agree :
  spellings_agree Proposal.from_dict Proposal.proposed_by "proposed_by" "proposedBy".
Proof. intros d v Hs Hc. proposal_prefix. now dict_simpl. Qed.

Lemma proposal_created_at_agree :
  spellings_agree_if_truthy_or_null Proposal.from_dict Proposal.created_at
    "created_at" "createdAt".
Proof. intros d v Hs Hc Hv. proposal_prefix. dict_simpl. now apply py_or_null_comm. Qed.

Lemma proposal_updated_at_agree :
  spellings_agree_if_truthy_or_null Proposal.from_dict Proposal.updated_at
    "updated_at" "updatedAt".
Proof. intros d v Hs Hc Hv. proposal_prefix. dict_simpl. now apply py_or_null_comm. Qed.

Lemma mission_created_at_agree :
  spellings_agree_if_truthy_or_null Mission.from_dict Mission.created_at
    "created_at" "createdAt".
Proof.
  intros d v Hs Hc Hv. rewrite !Mission_from_dict_obj.
  rewrite !(dict_get_insert_ne _ _ "proposals") by discriminate.
  destruct (py_iter _) as [raw|e]; simpl; [|reflexivity].
  destruct (comprehension _ raw) as [ps|e]; simpl; [|reflexivity].
  f_equal. dict_simpl. now apply py_or_null_comm.
Qed.

(** C2, as stated, fails for the fields resolved with [or]: an empty-string
    [last_heartbeat] next to a different [lastHeartbeat] yields the camelCase
    value, and an empty string given only as [last_heartbeat] is read as
    [None] while the same value given only as [lastHeartbeat] is kept. *)
Lemma snake_case_falsy_loses :
  agent_falsy_snake !! "last_heartbeat" = Some (JStr "")
  /\ agent_falsy_snake !! "lastHeartbeat" = Some (JStr "2026-02-23T00:00:00Z")
  /\ Agent.last_heartbeat <$> Agent.from_dict (JObj agent_falsy_snake)
       = Ok (JStr "2026-02-23T00:00:00Z")
  /\ Agent.last_heartbeat <$> Agent.from_dict (JObj agent_falsy_snake) <> Ok (JStr "")
  /\ Agent.last_heartbeat <$> Agent.from_dict (JObj agent_only_snake) = Ok JNull
  /\ Agent.last_heartbeat <$> Agent.from_dict (JObj agent_only_camel) = Ok (JStr "")
  /\ ~ snake_wins Agent.from_dict Agent.last_heartbeat "last_heartbeat" "lastHeartbeat"
  /\ ~ spellings_agree Agent.from_dict Agent.last_heartbeat "last_heartbeat" "lastHeartbeat".
Proof.
  assert (Hb : Agent.last_heartbeat <$> Agent.from_dict (JObj agent_falsy_snake)
               = Ok (JStr "2026-02-23T00:00:00Z")) by reflexivity.
  repeat split; try reflexivity.
  - rewrite Hb. discriminate.
  - intros H.
    destruct (Agent.from_dict (JObj agent_falsy_snake)) as [r|e] eqn:E; [|discriminate].
    specialize (H agent_falsy_snake (JStr "") (JStr "2026-02-23T00:00:00Z") r
                  eq_refl eq_refl E).
    simpl in Hb. rewrite H in Hb. discriminate.
  - intros H. specialize (H {[ "id" := JStr "scout" ]} (JStr "") eq_refl eq_refl).
    vm_compute in H. discriminate.
Qed.

(** C2 (amended): [assigned_to] and [proposed_by], read with a nested
    [get], take the snake_case value whenever both keys are present, and
    either spelling alone gives the same attribute.  [last_heartbeat],
    [created_at] and [updated_at], read with [or], take the snake_case value
    when both keys are present and that value is truthy, the camelCase value
    when it is falsy; either spelling alone gives the same attribute for a
    value that is truthy or null. *)
Theorem dual_named_field_resolution :
  (snake_wins ProposalStep.from_dict ProposalStep.assigned_to "assigned_to" "assignedTo"
   /\ snake_wins Proposal.from_dict Proposal.proposed_by "proposed_by" "proposedBy"
   /\ spellings_agree ProposalStep.from_dict ProposalStep.assigned_to
        "assigned_to" "assignedTo"
   /\ spellings_agree Proposal.from_dict Proposal.proposed_by "proposed_by" "proposedBy")
  /\ (snake_wins_if_truthy Agent.from_dict Agent.last_heartbeat
        "last_heartbeat" "lastHeartbeat"
      /\ snake_wins_if_truthy Proposal.from_dict Proposal.created_at "created_at" "createdAt"
      /\ snake_wins_if_truthy Proposal.from_dict Proposal.updated_at "updated_at" "updatedAt"
      /\ snake_wins_if_truthy Mission.from_dict Mission.created_at "created_at" "createdAt")
  /\ (camel_if_falsy Agent.from_dict Agent.last_heartbeat "last_heartbeat" "lastHeartbeat"
      /\ camel_if_falsy Proposal.from_dict Proposal.created_at "created_at" "createdAt"
      /\ camel_if_falsy Proposal.from_dict Proposal.updated_at "updated_at" "updatedAt"
      /\ camel_if_falsy Mission.from_dict Mission.created_at "created_at" "createdAt")
  /\ (spellings_agree_if_truthy_or_null Agent.from_dict Agent.last_heartbeat
        "last_heartbeat" "lastHeartbeat"
      /\ spellings_agree_if_truthy_or_null Proposal.from_dict Proposal.created_at
           "created_at" "createdAt"
      /\ spellings_agree_if_truthy_or_null Proposal.from_dict Proposal.updated_at
           "updated_at" "updatedAt"
      /\ spellings_agree_if_truthy_or_null Mission.from_dict Mission.created_at
           "created_at" "createdAt").
Proof.
  split; [|split; [|split]].
  - repeat split.
    + intros d a b r Hs Hc. rewrite ProposalStep_from_dict_obj. intros [= <-].
      simpl. now dict_simpl.
    + intros d a b r Hs Hc Hr. apply Proposal_from_dict_Ok in Hr.
      destruct Hr as (_ & _ & _ & _ & _ & _ & -> & _). now dict_simpl.
    + apply step_assigned_to_agree.
    + apply proposal_proposed_by_agree.
  - repeat split; intros d a b r Hs Hc Ht Hr.
    + apply Agent_from_dict_Ok in Hr.
      destruct Hr as (_ & _ & _ & _ & _ & _ & _ & -> & _).
      dict_simpl. now apply py_or_truthy.
    + apply Proposal_from_dict_Ok in Hr.
      destruct Hr as (_ & _ & _ & _ & _ & _ & _ & _ & _ & -> & _).
      dict_simpl. now apply py_or_truthy.
    + apply Proposal_from_dict_Ok in Hr.
      destruct Hr as (_ & _ & _ & _ & _ & _ & _ & _ & _ & _ & -> & _).
      dict_simpl. now apply py_or_truthy.
    + apply Mission_from_dict_Ok in Hr.
      destruct Hr as (_ & _ & _ & _ & _ & _ & _ & -> & _).
      dict_simpl. now apply py_or_truthy.
  - repeat split; intros d a b r Hs Hc Ht Hr.
    + apply Agent_from_dict_Ok in Hr.
      destruct Hr as (_ & _ & _ & _ & _ & _ & _ & -> & _).
      dict_simpl. now apply py_or_falsy.
    + apply Proposal_from_dict_Ok in Hr.
      destruct Hr as (_ & _ & _ & _ & _ & _ & _ & _ & _ & -> & _).
      dict_simpl. now apply py_or_falsy.
    + apply Proposal_from_dict_Ok in Hr.
      destruct Hr as (_ & _ & _ & _ & _ & _ & _ & _ & _ & _ & -> & _).
      dict_simpl. now apply py_or_falsy.
    + apply Mission_from_dict_Ok in Hr.
      destruct Hr as (_ & _ & _ & _ & _ & _ & _ & -> & _).
      dict_simpl. now apply py_or_falsy.
  - repeat split.
    + apply agent_last_heartbeat_agree.
    + apply proposal_created_at_agree.
    + apply proposal_updated_at_agree.
    + apply mission_created_at_agree.
Qed.

Lemma dual_named_field_resolution_witness :
  exists p,
    Proposal.from_dict (JObj proposal_both_spellings) = Ok p
    /\ Proposal.proposed_by p = JStr "nova"
    /\ Proposal.created_at p = JStr "2026-01-01T00:00:00Z".
Proof.
  destruct dual_named_field_resolution as ((_ & Hby & _) & (_ & Hat & _) & _).
  eexists. split; [reflexivity |]. split.
  - apply (Hby proposal_both_spellings (JStr "nova") (JStr "sage"));
      reflexivity.
  - apply (Hat proposal_both_spellings (JStr "2026-01-01T00:00:00Z")
             (JStr "2026-01-02T00:00:00Z")); reflexivity.
Defined.

(** ** Nested collections *)

Lemma py_iter_or_list l : py_iter (py_or (JArr l) (JArr [])) = Ok l.
Proof. destruct l; reflexivity. Qed.

Lemma py_iter_or_falsy v : truthy v = false -> py_iter (py_or v (JArr [])) = Ok [].
Proof. intros H. now rewrite py_or_falsy. Qed.

(** Iterating a truthy value that is not a list either fails or yields a
    first item that is a string. *)
Lemma py_iter_not_list v raw :
  truthy v = true -> (forall l, v <> JArr l) -> py_iter v = Ok raw ->
  exists s raw', raw = JStr s :: raw'.
Proof.
  intros Ht Hl. destruct v as [| | | |s|l|d]; simpl; try discriminate.
  - intros [= <-]. destruct s as [|c s]; [discriminate |].
    unfold chars_of. simpl. eauto.
  - now destruct (Hl l).
  - intros [= <-]. simpl in Ht.
    destruct (map_to_list d) as [|[k x] kvs]; [discriminate |]. simpl. eauto.
Qed.

Section Nested.
Context {B : Type} (f : json -> outcome B) (accepts : json -> bool).
Hypothesis accepts_spec : forall x, accepts x = true <-> exists y, f x = Ok y.
Hypothesis rejects_str : forall s, accepts (JStr s) = false.

Lemma nested_total v :
  collection_wellformed accepts v = true <->
  exists ys, (raw ← py_iter (py_or v (JArr [])); comprehension f raw) = Ok ys.
Proof.
  split.
  - intros H. destruct (truthy v) eqn:Ht.
    + destruct v as [| | | |s|l|d]; simpl in H, Ht;
        try discriminate; try (rewrite Ht in H; discriminate).
      rewrite py_iter_or_list; simpl. apply comprehension_total.
      apply Forall_forall. intros x Hx. apply accepts_spec.
      rewrite forallb_forall in H. apply H. now apply list_elem_of_In.
    + rewrite py_iter_or_falsy by exact Ht. simpl. eauto.
  - intros [ys H]. destruct (truthy v) eqn:Ht.
    + rewrite py_or_truthy in H by exact Ht.
      destruct (py_iter v) as [raw|e] eqn:Er; simpl in H; [|discriminate].
      destruct v as [| | | |s|l|d]; try discriminate.
      * destruct (py_iter_not_list _ _ Ht ltac:(discriminate) Er) as (s' & raw' & ->).
        simpl in H. destruct (f (JStr s')) as [y|e] eqn:Ef; [|discriminate].
        assert (accepts (JStr s') = true) by (apply accepts_spec; eauto).
        rewrite rejects_str in *. discriminate.
      * simpl in Er. injection Er as <-. simpl.
        apply comprehension_Ok_each in H. rewrite Forall_forall in H.
        apply forallb_forall. intros x Hx. apply accepts_spec, H.
        now apply list_elem_of_In.
      * destruct (py_iter_not_list _ _ Ht ltac:(discriminate) Er) as (s' & raw' & ->).
        simpl in H. destruct (f (JStr s')) as [y|e] eqn:Ef; [|discriminate].
        assert (accepts (JStr s') = true) by (apply accepts_spec; eauto).
        rewrite rejects_str in *. discriminate.
    + destruct v; simpl in *; try (now rewrite Ht); try reflexivity.
      destruct l; [reflexivity | discriminate].
Qed.

End Nested.

Lemma step_accepts x : is_mapping x = true <-> exists s, ProposalStep.from_dict x = Ok s.
Proof.
  destruct x; simpl; split; try discriminate; try (intros [? [=]]); eauto.
Qed.

Lemma Proposal_succeeds_iff (d : gmap string json) :
  steps_wellformed d = true <-> exists p, Proposal.from_dict (JObj d) = Ok p.
Proof.
  unfold steps_wellformed.
  rewrite (nested_total ProposalStep.from_dict is_mapping step_accepts (fun _ => eq_refl)).
  rewrite Proposal_from_dict_obj.
  destruct (py_iter _) as [raw|e]; simpl; [|split; intros [? [=]]].
  destruct (comprehension _ raw) as [steps|e]; simpl; [|split; intros [? [=]]].
  split; eauto.
Qed.

Lemma proposal_accepts x :
  proposal_wellformed x = true <-> exists p, Proposal.from_dict x = Ok p.
Proof.
  destruct x; simpl; try (split; [discriminate | intros [? [=]]]).
  apply Proposal_succeeds_iff.
Qed.

Lemma Mission_succeeds_iff (d : gmap string json) :
  proposals_wellformed d = true <-> exists m, Mission.from_dict (JObj d) = Ok m.
Proof.
  unfold proposals_wellformed.
  rewrite (nested_total Proposal.from_dict proposal_wellformed proposal_accepts
             (fun _ => eq_refl)).
  rewrite Mission_from_dict_obj.
  destruct (py_iter _) as [raw|e]; simpl; [|split; intros [? [=]]].
  destruct (comprehension _ raw) as [ps|e]; simpl; [|split; intros [? [=]]].
  split; eauto.
Qed.

(** C6: with [steps] (respectively [proposals]) absent or null the record
    is built and its list is empty; with a list there, the deserialiser
    succeeds exactly when the nested constructor succeeds on every element,
    and the record's list holds those results position by position. *)
Theorem nested_collections (d : gmap string json) :
  ((d !! "steps" = None \/ d !! "steps" = Some JNull) ->
     exists p, Proposal.from_dict (JObj d) = Ok p /\ Proposal.steps p = [])
  /\ (forall l, d !! "steps" = Some (JArr l) ->
        (forall p, Proposal.from_dict (JObj d) = Ok p ->
           Forall2 (fun x s => ProposalStep.from_dict x = Ok s) l (Proposal.steps p))
        /\ (forall ss, Forall2 (fun x s => ProposalStep.from_dict x = Ok s) l ss ->
              exists p, Proposal.from_dict (JObj d) = Ok p /\ Proposal.steps p = ss))
  /\ ((d !! "proposals" = None \/ d !! "proposals" = Some JNull) ->
        exists m, Mission.from_dict (JObj d) = Ok m /\ Mission.proposals m = [])
  /\ (forall l, d !! "proposals" = Some (JArr l) ->
        (forall m, Mission.from_dict (JObj d) = Ok m ->
           Forall2 (fun x p => Proposal.from_dict x = Ok p) l (Mission.proposals m))
        /\ (forall ps, Forall2 (fun x p => Proposal.from_dict x = Ok p) l ps ->
              exists m, Mission.from_dict (JObj d) = Ok m /\ Mission.proposals m = ps)).
Proof.
  split; [|split; [|split]].
  - intros H. rewrite Proposal_from_dict_obj.
    assert (dict_get d "steps" = JNull) as ->
      by (destruct H; [now apply dict_get_None | now apply dict_get_Some]).
    simpl. eauto.
  - intros l Hl. split.
    + intros p Hp. apply Proposal_from_dict_Ok in Hp.
      destruct Hp as (raw & Hraw & Hsteps & _).
      rewrite (dict_get_Some _ _ _ Hl), py_iter_or_list in Hraw.
      injection Hraw as <-. now apply comprehension_Ok_iff.
    + intros ss Hss. apply comprehension_Ok_iff in Hss.
      rewrite Proposal_from_dict_obj, (dict_get_Some _ _ _ Hl), py_iter_or_list.
      simpl. rewrite Hss. simpl. eauto.
  - intros H. rewrite Mission_from_dict_obj.
    assert (dict_get d "proposals" = JNull) as ->
      by (destruct H; [now apply dict_get_None | now apply dict_get_Some]).
    simpl. eauto.
  - intros l Hl. split.
    + intros m Hm. apply Mission_from_dict_Ok in Hm.
      destruct Hm as (raw & Hraw & Hps & _).
      rewrite (dict_get_Some _ _ _ Hl), py_iter_or_list in Hraw.
      injection Hraw as <-. now apply comprehension_Ok_iff.
    + intros ps Hps. apply comprehension_Ok_iff in Hps.
      rewrite Mission_from_dict_obj, (dict_get_Some _ _ _ Hl), py_iter_or_list.
      simpl. rewrite Hps. simpl. eauto.
Qed.

Lemma nested_collections_witness :
  exists p s1 s2,
    Proposal.from_dict (JObj proposal_with_steps) = Ok p
    /\ Proposal.steps p = [s1; s2]
    /\ ProposalStep.assigned_to s1 = JStr "scout"
    /\ ProposalStep.assigned_to s2 = JStr "quill".
Proof.
  destruct (nested_collections proposal_with_steps) as (_ & H & _).
  destruct (H _ eq_refl) as (_ & Hex).
  edestruct Hex as (p & Hp & Hs).
  { constructor; [reflexivity |]. constructor; [reflexivity |]. constructor. }
  exists p. do 2 eexists. split; [exact Hp |]. split; [exact Hs |].
  split; reflexivity.
Defined.

(** C10, as stated, fails: a mapping whose [steps] is the number 5 makes
    [Proposal.from_dict] raise, and so does a mission holding it. *)
Lemma from_dict_raises_on_bad_steps :
  Proposal.from_dict (JObj proposal_bad_steps) = Raise TypeError
  /\ Mission.from_dict (JObj mission_bad_proposals) = Raise TypeError
  /\ ~ (forall d : gmap string json, exists p, Proposal.from_dict (JObj d) = Ok p)
  /\ ~ (forall d : gmap string json, exists m, Mission.from_dict (JObj d) = Ok m).
Proof.
  split; [reflexivity |]. split; [reflexivity |]. split.
  - intros H. destruct (H proposal_bad_steps) as [p Hp]. discriminate Hp.
  - intros H. destruct (H mission_bad_proposals) as [m Hm]. discriminate Hm.
Qed.

(** C10 (amended): [Proposal.from_dict] succeeds on a mapping exactly when
    its [steps] value is absent, falsy or a list of mappings, and
    [Mission.from_dict] exactly when its [proposals] value is absent, falsy
    or a list of such mappings; on the empty mapping every attribute takes
    its default, and an absent [id], [title], [description] or [status] does
    so on any accepted mapping.  [Agent.from_dict] raises on a mapping
    exactly when [id] is absent, and then a [KeyError] for [id]. *)
Theorem from_dict_success_conditions :
  (forall d : gmap string json,
     steps_wellformed d = true <-> exists p, Proposal.from_dict (JObj d) = Ok p)
  /\ (forall d : gmap string json,
        proposals_wellformed d = true <-> exists m, Mission.from_dict (JObj d) = Ok m)
  /\ Proposal.from_dict (JObj ∅)
       = Ok (Proposal.mk (JStr "") (JStr "") (JStr "") (JStr "") (JStr "medium")
               (JStr "pending") [] JNull JNull ∅)
  /\ Mission.from_dict (JObj ∅)
       = Ok (Mission.mk (JStr "") (JStr "") (JStr "") (JStr "active") [] JNull ∅)
  /\ (forall (d : gmap string json) p, Proposal.from_dict (JObj d) = Ok p ->
        (d !! "id" = None -> Proposal.id p = JStr "")
        /\ (d !! "title" = None -> Proposal.title p = JStr "")
        /\ (d !! "description" = None -> Proposal.description p = JStr "")
        /\ (d !! "status" = None -> Proposal.status p = JStr "pending"))
  /\ (forall (d : gmap string json) m, Mission.from_dict (JObj d) = Ok m ->
        (d !! "id" = None -> Mission.id m = JStr "")
        /\ (d !! "title" = None -> Mission.title m = JStr "")
        /\ (d !! "description" = None -> Mission.description m = JStr "")
        /\ (d !! "status" = None -> Mission.status m = JStr "active"))
  /\ (forall d : gmap string json,
        d !! "id" = None <-> exists e, Agent.from_dict (JObj d) = Raise e)
  /\ (forall d : gmap string json,
        d !! "id" = None <-> Agent.from_dict (JObj d) = Raise (KeyError "id")).
Proof.
  split; [exact Proposal_succeeds_iff |].
  split; [exact Mission_succeeds_iff |].
  split; [reflexivity |]. split; [reflexivity |].
  split; [|split; [|split]].
  - intros d p Hp. apply Proposal_from_dict_Ok in Hp.
    destruct Hp as (_ & _ & _ & -> & -> & -> & _ & _ & -> & _).
    repeat split; intros H; now dict_simpl.
  - intros d m Hm. apply Mission_from_dict_Ok in Hm.
    destruct Hm as (_ & _ & _ & -> & -> & -> & -> & _).
    repeat split; intros H; now dict_simpl.
  - intros d. rewrite Agent_from_dict_obj.
    destruct (d !! "id"); split; try discriminate; eauto.
    intros [? [=]].
  - intros d. rewrite Agent_from_dict_obj.
    destruct (d !! "id"); split; try discriminate; eauto.
Qed.

Lemma from_dict_success_conditions_witness :
  (exists m, Mission.from_dict (JObj mission_with_proposals) = Ok m)
  /\ Agent.from_dict (JObj (∅ : gmap string json)) = Raise (KeyError "id").
Proof.
  destruct from_dict_success_conditions as (_ & Hm & _ & _ & _ & _ & _ & Ha).
  split.
  - apply Hm. vm_compute. reflexivity.
  - apply Ha. reflexivity.
Defined.

(** ** Unrecognised keys *)

(** The literal set of each [metadata] comprehension is the entity's
    attribute names in both spellings. *)
Ltac compute_known fields :=
  let l := eval vm_compute in (known_keys fields) in
  change (known_keys fields) with l.

Lemma Agent_excluded_known k : k ∈ Agent.excluded <-> k ∈ known_keys Agent.fields.
Proof. compute_known Agent.fields. unfold Agent.excluded. set_solver. Qed.

Lemma Proposal_excluded_known k : k ∈ Proposal.excluded <-> k ∈ known_keys Proposal.fields.
Proof. compute_known Proposal.fields. unfold Proposal.excluded. set_solver. Qed.

Lemma Mission_excluded_known k : k ∈ Mission.excluded <-> k ∈ known_keys Mission.fields.
Proof. compute_known Mission.fields. unfold Mission.excluded. set_solver. Qed.

Lemma Agent_metadata_collects (d : gmap string json) a :
  Agent.from_dict (JObj d) = Ok a -> collects_unknown Agent.fields (Agent.metadata a) d.
Proof.
  intros Ha k. apply Agent_from_dict_Ok in Ha.
  destruct Ha as (_ & _ & _ & _ & _ & _ & _ & _ & ->).
  rewrite <- Agent_excluded_known. apply without_keys_spec.
Qed.

Lemma Proposal_metadata_collects (d : gmap string json) p :
  Proposal.from_dict (JObj d) = Ok p ->
  collects_unknown Proposal.fields (Proposal.metadata p) d.
Proof.
  intros Hp k. apply Proposal_from_dict_Ok in Hp.
  destruct Hp as (_ & _ & _ & _ & _ & _ & _ & _ & _ & _ & _ & ->).
  rewrite <- Proposal_excluded_known. apply without_keys_spec.
Qed.

Lemma Mission_metadata_collects (d : gmap string json) m :
  Mission.from_dict (JObj d) = Ok m ->
  collects_unknown Mission.fields (Mission.metadata m) d.
Proof.
  intros Hm k. apply Mission_from_dict_Ok in Hm.
  destruct Hm as (_ & _ & _ & _ & _ & _ & _ & _ & ->).
  rewrite <- Mission_excluded_known. apply without_keys_spec.
Qed.

(** C7: each deserialiser builds its record on every mapping it does not
    refuse - [Agent.from_dict] when [id] is present, [Proposal.from_dict]
    when [steps] is absent, falsy or a list of mappings, [Mission.from_dict]
    when [proposals] is absent, falsy or a list of such mappings - and in
    that record a key that is not one of the entity's attribute names in
    either spelling is in [metadata] with the value it has in the input
    (and absent there if absent from the input), while no attribute name in
    either spelling is a key of [metadata].  The same holds of whatever
    record a deserialiser returns. *)
Theorem metadata_collects_unknown_keys (d : gmap string json) :
  (is_Some (d !! "id") ->
     exists a, Agent.from_dict (JObj d) = Ok a
               /\ collects_unknown Agent.fields (Agent.metadata a) d)
  /\ (steps_wellformed d = true ->
        exists p, Proposal.from_dict (JObj d) = Ok p
                  /\ collects_unknown Proposal.fields (Proposal.metadata p) d)
  /\ (proposals_wellformed d = true ->
        exists m, Mission.from_dict (JObj d) = Ok m
                  /\ collects_unknown Mission.fields (Mission.metadata m) d)
  /\ (forall a, Agent.from_dict (JObj d) = Ok a ->
        collects_unknown Agent.fields (Agent.metadata a) d)
  /\ (forall p, Proposal.from_dict (JObj d) = Ok p ->
        collects_unknown Proposal.fields (Proposal.metadata p) d)
  /\ (forall m, Mission.from_dict (JObj d) = Ok m ->
        collects_unknown Mission.fields (Mission.metadata m) d).
Proof.
  split; [|split; [|split; [|split; [|split]]]].
  - intros [i Hi].
    assert (Ha : exists a, Agent.from_dict (JObj d) = Ok a)
      by (rewrite Agent_from_dict_obj, Hi; eauto).
    destruct Ha as [a Ha]. exists a. split; [exact Ha |].
    now apply Agent_metadata_collects.
  - intros Hw. apply Proposal_succeeds_iff in Hw as [p Hp].
    exists p. split; [exact Hp |]. now apply Proposal_metadata_collects.
  - intros Hw. apply Mission_succeeds_iff in Hw as [m Hm].
    exists m. split; [exact Hm |]. now apply Mission_metadata_collects.
  - apply Agent_metadata_collects.
  - apply Proposal_metadata_collects.
  - apply Mission_metadata_collects.
Qed.

Lemma metadata_collects_unknown_keys_witness :
  (exists a,
     Agent.from_dict (JObj agent_with_extras) = Ok a
     /\ Agent.metadata a !! "region" = Some (JStr "eu")
     /\ Agent.metadata a !! "tags" = Some (JArr [ JStr "fast" ])
     /\ Agent.metadata a !! "lastHeartbeat" = None
     /\ Agent.metadata a !! "id" = None)
  /\ (exists p,
        Proposal.from_dict (JObj proposal_with_steps) = Ok p
        /\ Proposal.metadata p !! "team" = Some (JStr "red")
        /\ Proposal.metadata p !! "steps" = None)
  /\ (exists m,
        Mission.from_dict (JObj mission_with_extras) = Ok m
        /\ Mission.metadata m !! "owner" = Some (JStr "nova")
        /\ Mission.metadata m !! "createdAt" = None
        /\ Mission.metadata m !! "proposals" = None).
Proof.
  split; [|split].
  - destruct (metadata_collects_unknown_keys agent_with_extras) as (H & _).
    destruct H as (a & Ha & Hk); [eexists; reflexivity |].
    exists a. split; [exact Ha |]. repeat split.
    + destruct (Hk "region") as (Hin & _). rewrite Hin; [reflexivity |].
      apply (bool_decide_unpack _). vm_compute. exact I.
    + destruct (Hk "tags") as (Hin & _). rewrite Hin; [reflexivity |].
      apply (bool_decide_unpack _). vm_compute. exact I.
    + destruct (Hk "lastHeartbeat") as (_ & Hout). apply Hout.
      apply (bool_decide_unpack _). vm_compute. exact I.
    + destruct (Hk "id") as (_ & Hout). apply Hout.
      apply (bool_decide_unpack _). vm_compute. exact I.
  - destruct (metadata_collects_unknown_keys proposal_with_steps) as (_ & H & _).
    destruct H as (p & Hp & Hk); [vm_compute; reflexivity |].
    exists p. split; [exact Hp |]. split.
    + destruct (Hk "team") as (Hin & _). rewrite Hin; [reflexivity |].
      apply (bool_decide_unpack _). vm_compute. exact I.
    + destruct (Hk "steps") as (_ & Hout). apply Hout.
      apply (bool_decide_unpack _). vm_compute. exact I.
  - destruct (metadata_collects_unknown_keys mission_with_extras) as (_ & _ & H & _).
    destruct H as (m & Hm & Hk); [vm_compute; reflexivity |].
    exists m. split; [exact Hm |]. repeat split.
    + destruct (Hk "owner") as (Hin & _). rewrite Hin; [reflexivity |].
      apply (bool_decide_unpack _). vm_compute. exact I.
    + destruct (Hk "createdAt") as (_ & Hout). apply Hout.
      apply (bool_decide_unpack _). vm_compute. exact I.
    + destruct (Hk "proposals") as (_ & Hout). apply Hout.
      apply (bool_decide_unpack _). vm_compute. exact I.
Defined.

(** ** The request helper *)

Module ClientProps.
Import XSkynetClient.

Section Request.
Variable T : Session -> Request -> outcome Response.t.
Variables (self : t) (method path : string).
Variables (body : option json) (params : option (gmap string json)).
Variable resp : Response.t.
Hypothesis answered :
  T (_session self) (mkRequest method (_url self path) body params (timeout self)) = Ok resp.

(** A status in 400..599 raises the API error; both of its stored
    attributes are the response's own, the body uncut. *)
Lemma request_error_status :
  400 <= Response.status_code resp < 600 ->
  exists e,
    _request T self method path body params = Raise (XSkynetAPIError e)
    /\ status_code e = Response.status_code resp
    /\ response_body e = Response.text resp
    /\ message e = "API error " ++ str_of_int (Response.status_code resp) ++ ": "
                     ++ prefix_slice 200 (Response.text resp).
Proof.
  intros [Hlo Hhi]. unfold _request. rewrite answered. simpl.
  unfold Response.ok.
  apply Z.leb_le in Hlo. apply Z.ltb_lt in Hhi. rewrite Hlo, Hhi. simpl.
  eexists. split; [reflexivity |]. repeat split.
Qed.

(** Every other status passes the [resp.ok] test: 204 or an empty body
    gives [None], anything else the parsed body. *)
Lemma request_other_status :
  ~ (400 <= Response.status_code resp < 600) ->
  _request T self method path body params =
    if (Response.status_code resp =? 204)
       || match Response.content resp with [] => true | _ => false end
    then Ok JNull else Response.parsed resp.
Proof.
  intros H. unfold _request. rewrite answered. simpl.
  unfold Response.ok.
  destruct (400 <=? Response.status_code resp) eqn:Hlo;
    destruct (Response.status_code resp <? 600) eqn:Hhi; simpl; try reflexivity.
  apply Z.leb_le in Hlo. apply Z.ltb_lt in Hhi. now destruct H.
Qed.

Lemma request_success_status :
  200 <= Response.status_code resp < 300 ->
  _request T self method path body params =
    if (Response.status_code resp =? 204)
       || match Response.content resp with [] => true | _ => false end
    then Ok JNull else Response.parsed resp.
Proof. intros H. apply request_other_status. lia. Qed.

End Request.

(** C1 at a status outside 200..299 that [resp.ok] lets through: a 304
    response makes [_request] return [None] and [list_agents] an empty
    list, and a 300 response with a JSON body has that body returned; no
    API error is raised. *)
Theorem request_accepts_redirect_status :
  Response.status_code not_modified_response = 304
  /\ _request (answer not_modified_response) client "GET" "/api/ops/agents" None None
       = Ok JNull
  /\ list_agents (answer not_modified_response) client = Ok []
  /\ Response.status_code multiple_choices_response = 300
  /\ _request (answer multiple_choices_response) client "GET" "/api/ops/agents" None None
       = Ok (JObj {[ "agents" := JArr [] ]})
  /\ exists e,
       _request (answer forbidden_response) client "GET" "/api/ops/agents" None None
         = Raise (XSkynetAPIError e)
       /\ status_code e = 403
       /\ response_body e = Response.text forbidden_response.
Proof.
  repeat split; try reflexivity.
  eexists. split; [reflexivity |]. split; reflexivity.
Qed.

(** ** create_proposal *)

Lemma fold_append {A B} (g : A -> B) (l : list A) (acc : list B) :
  fold_left (fun acc x => (acc ++ [g x])%list) l acc = (acc ++ (g <$> l))%list.
Proof.
  revert acc. induction l as [|x l IH]; intros acc; simpl.
  - now rewrite app_nil_r.
  - rewrite IH. now rewrite <- app_assoc.
Qed.

Lemma serialised_steps_fmap steps :
  serialised_steps steps = serialise_step <$> default [] steps.
Proof. unfold serialised_steps. now rewrite fold_append. Qed.

(** C3, as stated, fails: a raw mapping is copied with all of its keys, so
    one that carries [status] reaches the payload with four keys. *)
Lemma raw_step_keeps_extra_keys :
  create_proposal_payload "My Task" "Details" "nova" "medium"
      (Some [StepDict raw_step_with_status]) !! "steps"
    = Some (JArr [JObj raw_step_with_status])
  /\ raw_step_with_status !! "status" = Some (JStr "done")
  /\ dom raw_step_with_status <> ({[ "title"; "assigned_to"; "prompt" ]} : gset string).
Proof.
  split; [reflexivity |]. split; [reflexivity |].
  intros H. assert (Hin : "status" ∈ dom raw_step_with_status)
    by (apply elem_of_dom; eexists; reflexivity).
  rewrite H in Hin. set_solver.
Qed.

(** C3 (amended): the payload has the five keys [title], [description],
    [proposed_by], [priority] and [steps]; its [steps] array holds one
    element per input step in the original order, a [ProposalStep] as its
    three-key wire shape [title], [assigned_to], [prompt] and a raw mapping
    as a copy of itself; with no steps argument the array is empty.  The
    session is handed this payload in a POST to [/api/ops/proposals], and
    nothing else of the session influences the call. *)
Theorem create_proposal_steps (title description proposed_by priority : string)
    (steps : option (list step_arg)) :
  dom (create_proposal_payload title description proposed_by priority steps)
    = ({[ "title"; "description"; "proposed_by"; "priority"; "steps" ]} : gset string)
  /\ create_proposal_payload title description proposed_by priority steps !! "steps"
       = Some (JArr (serialise_step <$> default [] steps))
  /\ create_proposal_payload title description proposed_by priority None !! "steps"
       = Some (JArr [])
  /\ (forall s, exists w,
        serialise_step (StepObject s) = JObj w
        /\ dom w = ({[ "title"; "assigned_to"; "prompt" ]} : gset string)
        /\ w !! "title" = Some (ProposalStep.title s)
        /\ w !! "assigned_to" = Some (ProposalStep.assigned_to s)
        /\ w !! "prompt" = Some (ProposalStep.prompt s))
  /\ (forall d, serialise_step (StepDict d) = JObj d)
  /\ (forall T1 T2 self,
        T1 (_session self)
           (create_proposal_request self title description proposed_by priority steps)
        = T2 (_session self)
             (create_proposal_request self title description proposed_by priority steps) ->
        create_proposal T1 self title description proposed_by priority steps
        = create_proposal T2 self title description proposed_by priority steps).
Proof.
  split; [|split; [|split; [|split; [|split]]]].
  - unfold create_proposal_payload. rewrite !dom_insert_L, dom_singleton_L. set_solver.
  - unfold create_proposal_payload. now rewrite serialised_steps_fmap.
  - reflexivity.
  - intros s. eexists. split; [reflexivity |]. unfold ProposalStep.to_dict.
    split; [rewrite !dom_insert_L, dom_singleton_L; set_solver |].
    repeat split; reflexivity.
  - reflexivity.
  - intros T1 T2 self H. unfold create_proposal, _request, create_proposal_payload.
    rewrite serialised_steps_fmap. unfold create_proposal_request in H.
    now rewrite H.
Qed.

Lemma create_proposal_steps_witness :
  create_proposal (answer created_response) client "T" "D" "sdk" "medium"
      (Some [StepDict raw_step_with_status])
  = create_proposal (post_only created_response) client "T" "D" "sdk" "medium"
      (Some [StepDict raw_step_with_status]).
Proof.
  destruct (create_proposal_steps "T" "D" "sdk" "medium"
              (Some [StepDict raw_step_with_status])) as (_ & _ & _ & _ & _ & H).
  apply H. reflexivity.
Defined.

(** ** The list operations *)

Lemma raw_records_rule {A} (key : string) (f : json -> outcome A) (body : json) :
  list_rule key f body (raw ← py_iter (raw_records key body); comprehension f raw).
Proof.
  repeat split.
  - intros d l -> Hk. simpl. now rewrite (dict_get_default_Some _ _ _ _ Hk).
  - intros d l -> Hk Hd. simpl.
    now rewrite (dict_get_default_None _ _ _ Hk), (dict_get_default_Some _ _ _ _ Hd).
  - intros d -> Hk Hd. simpl.
    now rewrite (dict_get_default_None _ _ _ Hk), (dict_get_default_None _ _ _ Hd).
  - now intros l ->.
Qed.

(** C8: when the request helper returns the parsed body [body], each list
    operation reads its raw records from the entity key if present, else
    from [data] if present, else has none; a bare array is the records
    itself; and the result is the comprehension of the entity constructor
    over those records in order. *)
Theorem list_operations_unwrap (T : Session -> Request -> outcome Response.t)
    (self : t) (body : json) :
  (_request T self "GET" "/api/ops/agents" None None = Ok body ->
     list_rule "agents" Agent.from_dict body (list_agents T self))
  /\ (forall status limit,
        _request T self "GET" "/api/ops/proposals" None
          (Some (list_proposals_params status limit)) = Ok body ->
        list_rule "proposals" Proposal.from_dict body (list_proposals T self status limit))
  /\ (forall limit,
        _request T self "GET" "/api/ops/missions" None
          (Some {[ "limit" := JNum limit ]}) = Ok body ->
        list_rule "missions" Mission.from_dict body (list_missions T self limit)).
Proof.
  split; [|split].
  - intros H. unfold list_agents. rewrite H. apply raw_records_rule.
  - intros status limit H. unfold list_proposals. simpl. rewrite H. apply raw_records_rule.
  - intros limit H. unfold list_missions. rewrite H. apply raw_records_rule.
Qed.

Lemma list_operations_unwrap_witness :
  exists a1 a2,
    list_agents (answer agents_response) client = Ok [a1; a2]
    /\ Agent.id a1 = JStr "scout" /\ Agent.status a1 = JStr "healthy"
    /\ Agent.id a2 = JStr "minion" /\ Agent.status a2 = JStr "idle".
Proof.
  destruct (list_operations_unwrap (answer agents_response) client agents_body)
    as (H & _).
  destruct (H eq_refl) as (Hkey & _).
  do 2 eexists. split.
  - rewrite (Hkey _ _ eq_refl eq_refl). reflexivity.
  - repeat split.
Defined.

End ClientProps.

(** * Further properties of the code *)

(** ** URL normalisation *)

Lemma lstrip_slashes n p : lstrip "/" (slashes n ++ p) = lstrip "/" p.
Proof.
  induction n as [|n IH]; [reflexivity |].
  simpl slashes. rewrite append_cons. simpl. exact IH.
Qed.

Lemma rstrip_only_slashes n : rstrip "/" (slashes n) = "".
Proof. induction n as [|n IH]; [reflexivity |]. simpl. now rewrite IH. Qed.

Lemma rstrip_slashes s n : rstrip "/" (s ++ slashes n) = rstrip "/" s.
Proof.
  induction s as [|c s IH].
  - rewrite append_nil_l. apply rstrip_only_slashes.
  - rewrite append_cons. simpl. now rewrite IH.
Qed.

Lemma rstrip_idempotent s : rstrip "/" (rstrip "/" s) = rstrip "/" s.
Proof.
  destruct (rstrip_slash_spec s) as (n & _ & Hl). now apply rstrip_fixed.
Qed.

(** X1: the resolved URL does not depend on how many slashes end the base
    URL given to the constructor or start the path, and constructing a
    client from an already stored base URL stores it again unchanged. *)
Theorem url_slash_insensitive (b k : string) (t r : Z) (n m : nat) (p : string) :
  XSkynetClient._url (XSkynetClient.__init__ (b ++ slashes n) k t r) (slashes m ++ p)
    = XSkynetClient._url (XSkynetClient.__init__ b k t r) p
  /\ XSkynetClient.base_url
       (XSkynetClient.__init__
          (XSkynetClient.base_url (XSkynetClient.__init__ b k t r)) k t r)
     = XSkynetClient.base_url (XSkynetClient.__init__ b k t r).
Proof.
  split.
  - unfold XSkynetClient._url. simpl. now rewrite rstrip_slashes, lstrip_slashes.
  - simpl. apply rstrip_idempotent.
Qed.

(** ** The API error *)

Lemma prefix_slice_length n s :
  String.length (prefix_slice n s) = Nat.min n (String.length s).
Proof.
  unfold prefix_slice. revert s. induction n as [|n IH]; intros [|c s]; simpl; auto.
Qed.

Lemma prefix_slice_prefix n s : exists rest, s = prefix_slice n s ++ rest.
Proof.
  unfold prefix_slice. revert s. induction n as [|n IH]; intros [|c s]; simpl.
  - now exists "".
  - now exists (String c s).
  - now exists "".
  - destruct (IH s) as [rest Hr]. exists rest. rewrite append_cons. congruence.
Qed.

Lemma prefix_slice_short n s : (String.length s <= n)%nat -> prefix_slice n s = s.
Proof.
  unfold prefix_slice. revert s. induction n as [|n IH]; intros [|c s]; simpl; auto.
  - intros H. inversion H.
  - intros H. f_equal. apply IH. now apply le_S_n.
Qed.

(** X2: an API error stores the status and the whole response text; its
    message is ["API error <status>: "] followed by the first 200 characters
    of the text, which is the whole text when it has at most 200. *)
Theorem api_error_message (status : Z) (body : string) :
  status_code (XSkynetAPIError_init status body) = status
  /\ response_body (XSkynetAPIError_init status body) = body
  /\ (exists shown rest,
        message (XSkynetAPIError_init status body)
          = "API error " ++ str_of_int status ++ ": " ++ shown
        /\ body = shown ++ rest
        /\ String.length shown = Nat.min 200 (String.length body))
  /\ ((String.length body <= 200)%nat ->
        message (XSkynetAPIError_init status body)
          = "API error " ++ str_of_int status ++ ": " ++ body).
Proof.
  split; [reflexivity |]. split; [reflexivity |]. split.
  - destruct (prefix_slice_prefix 200 body) as [rest Hr].
    exists (prefix_slice 200 body), rest.
    split; [reflexivity |]. split; [exact Hr | apply prefix_slice_length].
  - intros H. simpl. now rewrite prefix_slice_short.
Qed.

Lemma api_error_message_witness :
  message (XSkynetAPIError_init 403 "Forbidden") = "API error 403: Forbidden".
Proof.
  destruct (api_error_message 403 "Forbidden") as (_ & _ & _ & H).
  rewrite H; [reflexivity |]. vm_compute. repeat constructor.
Defined.

(** ** Records *)

Lemma without_keys_all names (d : gmap string json) :
  (forall k, is_Some (d !! k) -> k ∈ names) -> without_keys names d = ∅.
Proof.
  intros H. apply map_eq. intros k. rewrite lookup_empty.
  destruct (d !! k) as [v|] eqn:E.
  - apply without_keys_spec. apply H. eauto.
  - rewrite without_keys_lookup, E. now destruct (not_in k names).
Qed.

(** X3: on a mapping with an [id], [Agent.from_dict] succeeds and the
    agent's name is the value under [name] when there is one and the
    identifier itself otherwise; an absent [status] reads ["unknown"], and
    absent [role] and [model] read as the empty string. *)
Theorem Agent_name_defaults_to_id (d : gmap string json) (i : json) :
  d !! "id" = Some i ->
  exists a,
    Agent.from_dict (JObj d) = Ok a
    /\ Agent.id a = i
    /\ (d !! "name" = None -> Agent.name a = i)
    /\ (forall n, d !! "name" = Some n -> Agent.name a = n)
    /\ (d !! "status" = None -> Agent.status a = JStr "unknown")
    /\ (d !! "role" = None -> Agent.role a = JStr "")
    /\ (d !! "model" = None -> Agent.model a = JStr "").
Proof.
  intros Hi. rewrite Agent_from_dict_obj, Hi. eexists. split; [reflexivity |].
  simpl. split; [reflexivity |].
  repeat split; intros; now dict_simpl.
Qed.

Lemma Agent_name_defaults_to_id_witness :
  exists a,
    Agent.from_dict (JObj agent_minimal) = Ok a
    /\ Agent.id a = JStr "x" /\ Agent.name a = JStr "x"
    /\ Agent.status a = JStr "unknown".
Proof.
  destruct (Agent_name_defaults_to_id agent_minimal (JStr "x"))
    as (a & Ha & Hi & Hn & _ & Hs & _); [reflexivity |].
  exists a. split; [exact Ha |]. split; [exact Hi |].
  split; [apply Hn | apply Hs]; reflexivity.
Defined.

(** X4: a value that is not a mapping is refused by every deserialiser:
    [Agent.from_dict] raises [TypeError] (from the subscript [data["id"]]),
    the other three raise [AttributeError] (from [data.get]). *)
Theorem from_dict_rejects_non_mapping (v : json) :
  is_mapping v = false ->
  Agent.from_dict v = Raise TypeError
  /\ ProposalStep.from_dict v = Raise AttributeError
  /\ Proposal.from_dict v = Raise AttributeError
  /\ Mission.from_dict v = Raise AttributeError.
Proof. destruct v; simpl; try discriminate; intros _; repeat split. Qed.

Lemma from_dict_rejects_non_mapping_witness :
  Agent.from_dict (JArr [JStr "scout"]) = Raise TypeError
  /\ Proposal.from_dict JNull = Raise AttributeError.
Proof.
  destruct (from_dict_rejects_non_mapping (JArr [JStr "scout"]) eq_refl) as (Ha & _).
  destruct (from_dict_rejects_non_mapping JNull eq_refl) as (_ & _ & Hp & _).
  split; [exact Ha | exact Hp].
Defined.

Lemma step_to_dict_lookups (s : ProposalStep.t) :
  ProposalStep.to_dict s !! "title" = Some (ProposalStep.title s)
  /\ ProposalStep.to_dict s !! "assigned_to" = Some (ProposalStep.assigned_to s)
  /\ ProposalStep.to_dict s !! "prompt" = Some (ProposalStep.prompt s)
  /\ ProposalStep.to_dict s !! "assignedTo" = None
  /\ ProposalStep.to_dict s !! "status" = None
  /\ ProposalStep.to_dict s !! "result" = None.
Proof. repeat split. Qed.

(** X5: serialising a step and deserialising it again keeps [title],
    [assigned_to] and [prompt] and resets [status] to ["pending"] and
    [result] to [None]; so a step that is pending with no result survives
    the round trip unchanged, and serialising once more gives the same
    wire mapping. *)
Theorem step_from_dict_to_dict (s : ProposalStep.t) :
  ProposalStep.from_dict (JObj (ProposalStep.to_dict s))
    = Ok (ProposalStep.mk (ProposalStep.title s) (ProposalStep.assigned_to s)
            (ProposalStep.prompt s) (JStr "pending") JNull)
  /\ (ProposalStep.status s = JStr "pending" -> ProposalStep.result s = JNull ->
        ProposalStep.from_dict (JObj (ProposalStep.to_dict s)) = Ok s)
  /\ ProposalStep.to_dict <$> ProposalStep.from_dict (JObj (ProposalStep.to_dict s))
       = Ok (ProposalStep.to_dict s).
Proof.
  assert (H : ProposalStep.from_dict (JObj (ProposalStep.to_dict s))
              = Ok (ProposalStep.mk (ProposalStep.title s) (ProposalStep.assigned_to s)
                      (ProposalStep.prompt s) (JStr "pending") JNull)) by reflexivity.
  split; [exact H |]. split.
  - intros Hs Hr. rewrite H. destruct s; simpl in *. now subst.
  - now rewrite H.
Qed.

Lemma step_from_dict_to_dict_witness :
  ProposalStep.from_dict
    (JObj (ProposalStep.to_dict
             (ProposalStep.mk (JStr "S1") (JStr "scout") (JStr "Go") (JStr "pending") JNull)))
  = Ok (ProposalStep.mk (JStr "S1") (JStr "scout") (JStr "Go") (JStr "pending") JNull).
Proof.
  destruct (step_from_dict_to_dict
              (ProposalStep.mk (JStr "S1") (JStr "scout") (JStr "Go") (JStr "pending") JNull))
    as (_ & H & _).
  apply H; reflexivity.
Defined.

Lemma sent_step_spec (step : step_arg) :
  ProposalStep.from_dict (XSkynetClient.serialise_step step) = Ok (sent_step step).
Proof. destruct step; reflexivity. Qed.

Lemma comprehension_fmap_Ok {A B C} (g : A -> B) (f : B -> outcome C) (h : A -> C)
    (l : list A) :
  (forall x, f (g x) = Ok (h x)) -> comprehension f (g <$> l) = Ok (h <$> l).
Proof.
  intros H. induction l as [|x l IH]; [reflexivity |].
  rewrite !fmap_cons, comprehension_cons, H, IH. reflexivity.
Qed.

(** X6: the payload [create_proposal] sends is one [Proposal.from_dict]
    accepts: read back, it gives a proposal with the four strings passed
    in, an empty identifier, status ["pending"], no timestamps, no extra
    fields, and one step per input step in the same order - a
    [ProposalStep] with its status and result reset, a raw mapping as
    [ProposalStep.from_dict] reads it. *)
Theorem create_proposal_payload_reads_back
    (title description proposed_by priority : string) (steps : option (list step_arg)) :
  Proposal.from_dict
    (JObj (XSkynetClient.create_proposal_payload title description proposed_by priority steps))
  = Ok (Proposal.mk (JStr "") (JStr title) (JStr description) (JStr proposed_by)
          (JStr priority) (JStr "pending") (sent_step <$> default [] steps)
          JNull JNull ∅).
Proof.
  rewrite Proposal_from_dict_obj.
  unfold XSkynetClient.create_proposal_payload.
  rewrite ClientProps.serialised_steps_fmap.
  assert (Hs : dict_get
                 ({[ "title" := JStr title; "description" := JStr description;
                     "proposed_by" := JStr proposed_by; "priority" := JStr priority;
                     "steps" := JArr (XSkynetClient.serialise_step <$> default [] steps) ]}
                  : gmap string json) "steps"
               = JArr (XSkynetClient.serialise_step <$> default [] steps)) by reflexivity.
  rewrite Hs, py_iter_or_list. simpl.
  rewrite (comprehension_fmap_Ok _ _ sent_step _ sent_step_spec). reflexivity.
Qed.

(** X7: when the snake_case key is absent, the attribute is whatever the
    camelCase key holds - for the fields read with [or] the value or
    [None], for the fields read with a nested [get] the value or the empty
    string. *)
Theorem camel_case_alone_is_read (d : gmap string json) :
  (d !! "assigned_to" = None ->
     forall s, ProposalStep.from_dict (JObj d) = Ok s ->
       ProposalStep.assigned_to s = dict_get_default d "assignedTo" (JStr ""))
  /\ (d !! "proposed_by" = None ->
        forall p, Proposal.from_dict (JObj d) = Ok p ->
          Proposal.proposed_by p = dict_get_default d "proposedBy" (JStr ""))
  /\ (d !! "last_heartbeat" = None ->
        forall a, Agent.from_dict (JObj d) = Ok a ->
          Agent.last_heartbeat a = dict_get d "lastHeartbeat")
  /\ (d !! "created_at" = None ->
        forall p, Proposal.from_dict (JObj d) = Ok p ->
          Proposal.created_at p = dict_get d "createdAt")
  /\ (d !! "updated_at" = None ->
        forall p, Proposal.from_dict (JObj d) = Ok p ->
          Proposal.updated_at p = dict_get d "updatedAt")
  /\ (d !! "created_at" = None ->
        forall m, Mission.from_dict (JObj d) = Ok m ->
          Mission.created_at m = dict_get d "createdAt").
Proof.
  repeat split; intros Hs r Hr.
  - rewrite ProposalStep_from_dict_obj in Hr. injection Hr as <-. simpl. now dict_simpl.
  - apply Proposal_from_dict_Ok in Hr.
    destruct Hr as (_ & _ & _ & _ & _ & _ & -> & _). now dict_simpl.
  - apply Agent_from_dict_Ok in Hr.
    destruct Hr as (_ & _ & _ & _ & _ & _ & _ & -> & _).
    now rewrite (dict_get_None _ _ Hs).
  - apply Proposal_from_dict_Ok in Hr.
    destruct Hr as (_ & _ & _ & _ & _ & _ & _ & _ & _ & -> & _).
    now rewrite (dict_get_None _ _ Hs).
  - apply Proposal_from_dict_Ok in Hr.
    destruct Hr as (_ & _ & _ & _ & _ & _ & _ & _ & _ & _ & -> & _).
    now rewrite (dict_get_None _ _ Hs).
  - apply Mission_from_dict_Ok in Hr.
    destruct Hr as (_ & _ & _ & _ & _ & _ & _ & -> & _).
    now rewrite (dict_get_None _ _ Hs).
Qed.

Lemma camel_case_alone_is_read_witness :
  exists a,
    Agent.from_dict (JObj agent_only_camel) = Ok a
    /\ Agent.last_heartbeat a = JStr "".
Proof.
  destruct (camel_case_alone_is_read agent_only_camel) as (_ & _ & H & _).
  eexists. split; [reflexivity |]. apply H; reflexivity.
Defined.

(** X8: the plain fields are not validated: whatever JSON value sits under
    [priority], [status], [id], [title] or [description] of a proposal (or
    [status], [role], [model] of an agent, or the plain fields of a mission)
    is stored as it is, and an absent [priority] reads ["medium"]. *)
Theorem plain_fields_kept_verbatim (d : gmap string json) (v : json) :
  (forall p, Proposal.from_dict (JObj d) = Ok p ->
     (d !! "id" = Some v -> Proposal.id p = v)
     /\ (d !! "title" = Some v -> Proposal.title p = v)
     /\ (d !! "description" = Some v -> Proposal.description p = v)
     /\ (d !! "priority" = Some v -> Proposal.priority p = v)
     /\ (d !! "status" = Some v -> Proposal.status p = v)
     /\ (d !! "priority" = None -> Proposal.priority p = JStr "medium"))
  /\ (forall a, Agent.from_dict (JObj d) = Ok a ->
        (d !! "status" = Some v -> Agent.status a = v)
        /\ (d !! "role" = Some v -> Agent.role a = v)
        /\ (d !! "model" = Some v -> Agent.model a = v))
  /\ (forall m, Mission.from_dict (JObj d) = Ok m ->
        (d !! "id" = Some v -> Mission.id m = v)
        /\ (d !! "title" = Some v -> Mission.title m = v)
        /\ (d !! "description" = Some v -> Mission.description m = v)
        /\ (d !! "status" = Some v -> Mission.status m = v)).
Proof.
  split; [|split].
  - intros p Hp. apply Proposal_from_dict_Ok in Hp.
    destruct Hp as (_ & _ & _ & -> & -> & -> & _ & -> & -> & _).
    repeat split; intros H; now dict_simpl.
  - intros a Ha. apply Agent_from_dict_Ok in Ha.
    destruct Ha as (i & _ & _ & _ & -> & -> & -> & _).
    repeat split; intros H; now dict_simpl.
  - intros m Hm. apply Mission_from_dict_Ok in Hm.
    destruct Hm as (_ & _ & _ & -> & -> & -> & -> & _).
    repeat split; intros H; now dict_simpl.
Qed.

Lemma plain_fields_kept_verbatim_witness :
  exists p,
    Proposal.from_dict (JObj proposal_bad_priority) = Ok p
    /\ Proposal.priority p = JNum 7.
Proof.
  destruct (plain_fields_kept_verbatim proposal_bad_priority (JNum 7)) as (H & _).
  eexists. split; [reflexivity |].
  destruct (H _ eq_refl) as (_ & _ & _ & Hp & _). apply Hp. reflexivity.
Defined.

Lemma comprehension_first_failure {A B} (f : A -> outcome B) l1 x l2 e :
  Forall (fun y => exists b, f y = Ok b) l1 -> f x = Raise e ->
  comprehension f (l1 ++ x :: l2) = Raise e.
Proof.
  intros Hl Hx. induction Hl as [|y l1 [b Hb] _ IH]; simpl.
  - now rewrite Hx.
  - rewrite Hb. simpl. now rewrite IH.
Qed.


Lemma step_rejects_str s : ProposalStep.from_dict (JStr s) = Raise AttributeError.
Proof. reflexivity. Qed.

(** X9: what [Proposal.from_dict] does with a [steps] value that is not a
    list of mappings: a falsy value (null, false, 0, an empty string, list
    or mapping) reads as no steps; a true boolean or a non-zero number
    raises [TypeError]; a non-empty string or mapping raises
    [AttributeError], and so does a list in which some element is not a
    mapping while those before it are. *)
Theorem Proposal_steps_edge_cases (d : gmap string json) (v : json) :
  d !! "steps" = Some v ->
  (truthy v = false ->
     exists p, Proposal.from_dict (JObj d) = Ok p /\ Proposal.steps p = [])
  /\ (truthy v = true -> not_iterable v = true ->
        Proposal.from_dict (JObj d) = Raise TypeError)
  /\ (truthy v = true -> (exists s, v = JStr s) \/ (exists m, v = JObj m) ->
        Proposal.from_dict (JObj d) = Raise AttributeError)
  /\ (forall l1 x l2, v = JArr (l1 ++ x :: l2) ->
        Forall (fun y => is_mapping y = true) l1 -> is_mapping x = false ->
        Proposal.from_dict (JObj d) = Raise AttributeError).
Proof.
  intros Hv. rewrite Proposal_from_dict_obj, (dict_get_Some _ _ _ Hv).
  split; [|split; [|split]].
  - intros Hf. rewrite (py_iter_or_falsy v Hf). simpl. eauto.
  - intros Ht Hn. rewrite (py_or_truthy v (JArr []) Ht).
    destruct v; try discriminate; reflexivity.
  - intros Ht Hs. rewrite (py_or_truthy v (JArr []) Ht).
    destruct (py_iter v) as [raw|e] eqn:Er.
    + destruct (py_iter_not_list v raw Ht) as (s & raw' & ->);
        [destruct Hs as [[? ->] | [? ->]]; discriminate | exact Er |].
      reflexivity.
    + destruct Hs as [[? ->] | [? ->]]; discriminate.
  - intros l1 x l2 -> Hl Hx. rewrite py_iter_or_list. simpl.
    rewrite (comprehension_first_failure ProposalStep.from_dict l1 x l2 AttributeError).
    + reflexivity.
    + eapply Forall_impl; [exact Hl |]. intros y Hy. now apply step_accepts.
    + destruct x; try reflexivity. discriminate.
Qed.

Lemma Proposal_steps_edge_cases_witness :
  (exists p, Proposal.from_dict (JObj proposal_zero_steps) = Ok p /\ Proposal.steps p = [])
  /\ Proposal.from_dict (JObj proposal_text_steps) = Raise AttributeError.
Proof.
  destruct (Proposal_steps_edge_cases proposal_zero_steps (JNum 0) eq_refl) as (H0 & _).
  destruct (Proposal_steps_edge_cases proposal_text_steps (JStr "later") eq_refl)
    as (_ & _ & Hs & _).
  split; [apply H0; reflexivity | apply Hs; [reflexivity | left; eauto]].
Defined.

(** ** Public operations *)

Module OperationProps.
Import XSkynetClient.

Section Propagation.
Variable T : Session -> Request -> outcome Response.t.
Variable self : t.

Lemma request_raises_transport method path body params e :
  T (_session self) (mkRequest method (_url self path) body params (timeout self)) = Raise e ->
  _request T self method path body params = Raise e.
Proof. intros H. unfold _request. now rewrite H. Qed.

Lemma request_raises_api_error method path body params resp :
  T (_session self) (mkRequest method (_url self path) body params (timeout self)) = Ok resp ->
  400 <= Response.status_code resp < 600 ->
  raises_api_error (_request T self method path body params) resp.
Proof.
  intros H [Hlo Hhi]. unfold raises_api_error, _request. rewrite H. simpl.
  unfold Response.ok. apply Z.leb_le in Hlo. apply Z.ltb_lt in Hhi.
  now rewrite Hlo, Hhi.
Qed.

Lemma request_no_content method path body params resp :
  T (_session self) (mkRequest method (_url self path) body params (timeout self)) = Ok resp ->
  ~ (400 <= Response.status_code resp < 600) ->
  Response.status_code resp = 204 \/ Response.content resp = [] ->
  _request T self method path body params = Ok JNull.
Proof.
  intros H Hok Hnone.
  rewrite (ClientProps.request_other_status T self method path body params resp H Hok).
  destruct Hnone as [-> | ->]; [reflexivity |].
  now rewrite orb_true_r.
Qed.

End Propagation.

(** Each operation passes on what [_request] raises. *)
Ltac through_request H :=
  unfold list_agents, get_agent, send_heartbeat, create_proposal, list_proposals,
    get_proposal, get_mission, list_missions, raises_api_error in *;
  cbv zeta; rewrite ?H; reflexivity.

(** X10: when the server answers with a status in 400..599, every public
    operation raises the API error carrying that status and the whole
    response text; none returns a value or raises anything else. *)
Theorem api_error_reaches_caller (T : Session -> Request -> outcome Response.t)
    (self : t) (resp : Response.t) :
  (forall req, T (_session self) req = Ok resp) ->
  400 <= Response.status_code resp < 600 ->
  raises_api_error (list_agents T self) resp
  /\ (forall agent_id, raises_api_error (get_agent T self agent_id) resp)
  /\ (forall agent_id status, raises_api_error (send_heartbeat T self agent_id status) resp)
  /\ (forall title description proposed_by priority steps,
        raises_api_error
          (create_proposal T self title description proposed_by priority steps) resp)
  /\ (forall status limit, raises_api_error (list_proposals T self status limit) resp)
  /\ (forall proposal_id, raises_api_error (get_proposal T self proposal_id) resp)
  /\ (forall mission_id, raises_api_error (get_mission T self mission_id) resp)
  /\ (forall limit, raises_api_error (list_missions T self limit) resp).
Proof.
  intros HT Hs.
  assert (H : forall method path body params,
             _request T self method path body params
             = Raise (XSkynetAPIError
                        (XSkynetAPIError_init (Response.status_code resp)
                           (Response.text resp)))).
  { intros. now apply request_raises_api_error. }
  repeat split; intros; through_request H.
Qed.

Lemma api_error_reaches_caller_witness :
  raises_api_error (list_agents (answer forbidden_response) client) forbidden_response
  /\ raises_api_error (get_mission (answer forbidden_response) client "nonexistent")
       forbidden_response.
Proof.
  destruct (api_error_reaches_caller (answer forbidden_response) client forbidden_response)
    as (Hl & _ & _ & _ & _ & _ & Hm & _).
  - reflexivity.
  - simpl. lia.
  - split; [exact Hl | apply Hm].
Defined.

(** X11: an exception raised by the session itself (connection failure,
    timeout) comes out of every public operation as it is, not wrapped in
    the API error. *)
Theorem transport_error_reaches_caller (T : Session -> Request -> outcome Response.t)
    (self : t) (e : exn) :
  (forall req, T (_session self) req = Raise e) ->
  list_agents T self = Raise e
  /\ (forall agent_id, get_agent T self agent_id = Raise e)
  /\ (forall agent_id status, send_heartbeat T self agent_id status = Raise e)
  /\ (forall title description proposed_by priority steps,
        create_proposal T self title description proposed_by priority steps = Raise e)
  /\ (forall status limit, list_proposals T self status limit = Raise e)
  /\ (forall proposal_id, get_proposal T self proposal_id = Raise e)
  /\ (forall mission_id, get_mission T self mission_id = Raise e)
  /\ (forall limit, list_missions T self limit = Raise e).
Proof.
  intros HT.
  assert (H : forall method path body params,
             _request T self method path body params = Raise e).
  { intros. now apply request_raises_transport. }
  repeat split; intros; through_request H.
Qed.

Lemma transport_error_reaches_caller_witness :
  list_agents unreachable client = Raise TransportError
  /\ send_heartbeat unreachable client "minion" "healthy" = Raise TransportError.
Proof.
  destruct (transport_error_reaches_caller unreachable client TransportError)
    as (Hl & _ & Hh & _).
  - reflexivity.
  - split; [exact Hl | apply Hh].
Defined.

(** X12: a response that passes the status test with status 204 (whatever
    its body) or with an empty body makes the list operations return an
    empty list and [send_heartbeat] return [None], while [get_agent] raises
    [TypeError] and [create_proposal], [get_proposal] and [get_mission]
    raise [AttributeError]. *)
Theorem no_content_results (T : Session -> Request -> outcome Response.t)
    (self : t) (resp : Response.t) :
  (forall req, T (_session self) req = Ok resp) ->
  ~ (400 <= Response.status_code resp < 600) ->
  Response.status_code resp = 204 \/ Response.content resp = [] ->
  list_agents T self = Ok []
  /\ (forall status limit, list_proposals T self status limit = Ok [])
  /\ (forall limit, list_missions T self limit = Ok [])
  /\ (forall agent_id status, send_heartbeat T self agent_id status = Ok JNull)
  /\ (forall agent_id, get_agent T self agent_id = Raise TypeError)
  /\ (forall title description proposed_by priority steps,
        create_proposal T self title description proposed_by priority steps
        = Raise AttributeError)
  /\ (forall proposal_id, get_proposal T self proposal_id = Raise AttributeError)
  /\ (forall mission_id, get_mission T self mission_id = Raise AttributeError).
Proof.
  intros HT Hok Hnone.
  assert (H : forall method path body params,
             _request T self method path body params = Ok JNull).
  { intros. eapply request_no_content; eauto. }
  repeat split; intros; through_request H.
Qed.

Lemma no_content_results_witness :
  list_agents (answer no_content_response) client = Ok []
  /\ get_agent (answer no_content_response) client "scout" = Raise TypeError.
Proof.
  destruct (no_content_results (answer no_content_response) client no_content_response)
    as (Hl & _ & _ & _ & Hg & _).
  - reflexivity.
  - simpl. lia.
  - left. reflexivity.
  - split; [exact Hl | apply Hg].
Defined.

Lemma unwrap_rule {A} (key : string) (f : json -> outcome A) (body : json) :
  get_rule key f body (f (unwrap key body)).
Proof.
  repeat split.
  - intros d v -> Hk. simpl. now rewrite Hk.
  - intros d -> Hk. simpl. now rewrite Hk.
  - destruct body; simpl; try reflexivity. discriminate.
Qed.

(** X13: when the request helper returns the parsed body [body], each
    single-record operation deserialises the value under its wrapper key
    ([agent], [proposal], [mission]) if the body is a mapping that has the
    key - whatever that value is - and the body itself otherwise. *)
Theorem single_record_operations_unwrap (T : Session -> Request -> outcome Response.t)
    (self : t) (body : json) :
  (forall agent_id,
     _request T self "GET" ("/api/ops/agents/" ++ agent_id) None None = Ok body ->
     get_rule "agent" Agent.from_dict body (get_agent T self agent_id))
  /\ (forall title description proposed_by priority steps,
        _request T self "POST" "/api/ops/proposals"
          (Some (JObj (create_proposal_payload title description proposed_by priority steps)))
          None = Ok body ->
        get_rule "proposal" Proposal.from_dict body
          (create_proposal T self title description proposed_by priority steps))
  /\ (forall proposal_id,
        _request T self "GET" ("/api/ops/proposals/" ++ proposal_id) None None = Ok body ->
        get_rule "proposal" Proposal.from_dict body (get_proposal T self proposal_id))
  /\ (forall mission_id,
        _request T self "GET" ("/api/ops/missions/" ++ mission_id) None None = Ok body ->
        get_rule "mission" Mission.from_dict body (get_mission T self mission_id)).
Proof.
  split; [|split; [|split]]; intros * H;
    unfold get_agent, create_proposal, get_proposal, get_mission; cbv zeta;
    rewrite H; apply unwrap_rule.
Qed.

Lemma single_record_operations_unwrap_witness :
  exists m,
    get_mission (answer mission_response) client "m-007" = Ok m
    /\ Mission.id m = JStr "m-007" /\ Mission.title m = JStr "Alpha"
    /\ Mission.proposals m = [].
Proof.
  destruct (single_record_operations_unwrap (answer mission_response) client mission_body)
    as (_ & _ & _ & H).
  destruct (H "m-007" eq_refl) as (Hkey & _).
  eexists. split.
  - rewrite (Hkey _ _ eq_refl eq_refl). reflexivity.
  - repeat split.
Defined.

(** X14: the query of [list_proposals] always carries [limit] with the
    number given; it carries [status] exactly when a non-empty status was
    given, and nothing else - an empty status string filters nothing. *)
Theorem list_proposals_query (status : option string) (limit : Z) :
  list_proposals_params status limit !! "limit" = Some (JNum limit)
  /\ (forall s, status = Some s -> s <> "" ->
        list_proposals_params status limit !! "status" = Some (JStr s))
  /\ (status = None \/ status = Some "" ->
        list_proposals_params status limit = {[ "limit" := JNum limit ]})
  /\ dom (list_proposals_params status limit) ⊆ ({[ "limit"; "status" ]} : gset string).
Proof.
  unfold list_proposals_params.
  destruct status as [s|]; [destruct s as [|c s] |]; simpl.
  - split; [reflexivity |]. split; [intros ? [= <-] H; now destruct H |].
    split; [reflexivity |]. rewrite dom_singleton_L. set_solver.
  - split; [reflexivity |]. split; [now intros ? [= <-] _ |].
    split; [intros [H | H]; discriminate H |].
    rewrite dom_insert_L, dom_singleton_L. set_solver.
  - split; [reflexivity |]. split; [discriminate |].
    split; [reflexivity |]. rewrite dom_singleton_L. set_solver.
Qed.

Lemma list_proposals_query_witness :
  list_proposals_params (Some "pending") 50 !! "status" = Some (JStr "pending")
  /\ list_proposals_params (Some "") 50 = {[ "limit" := JNum 50 ]}.
Proof.
  destruct (list_proposals_query (Some "pending") 50) as (_ & H1 & _).
  destruct (list_proposals_query (Some "") 50) as (_ & _ & H2 & _).
  split; [apply H1; [reflexivity | discriminate] | apply H2; now right].
Defined.

Lemma request_only_consults (T1 T2 : Session -> Request -> outcome Response.t)
    (self : t) method path body params req :
  req = mkRequest method (_url self path) body params (timeout self) ->
  T1 (_session self) req = T2 (_session self) req ->
  _request T1 self method path body params = _request T2 self method path body params.
Proof. intros -> H. unfold _request. now rewrite H. Qed.

(** X15: each public operation issues one request and depends on the
    session through it alone: the method, the URL (the stored base
    followed by the endpoint path), the JSON body, the query parameters and
    the client's timeout are as listed. *)
Theorem operations_requests (self : t) :
  only_consults (fun T => list_agents T self) self
    (mkRequest "GET" (base_url self ++ "/api/ops/agents") None None (timeout self))
  /\ (forall agent_id,
        only_consults (fun T => get_agent T self agent_id) self
          (mkRequest "GET" (base_url self ++ "/api/ops/agents/" ++ agent_id)
             None None (timeout self)))
  /\ (forall agent_id status,
        only_consults (fun T => send_heartbeat T self agent_id status) self
          (mkRequest "POST"
             (base_url self ++ "/api/ops/agents/" ++ agent_id ++ "/heartbeat")
             (Some (JObj {[ "status" := JStr status ]})) None (timeout self)))
  /\ (forall title description proposed_by priority steps,
        only_consults
          (fun T => create_proposal T self title description proposed_by priority steps) self
          (mkRequest "POST" (base_url self ++ "/api/ops/proposals")
             (Some (JObj (create_proposal_payload title description proposed_by
                            priority steps)))
             None (timeout self)))
  /\ (forall status limit,
        only_consults (fun T => list_proposals T self status limit) self
          (mkRequest "GET" (base_url self ++ "/api/ops/proposals") None
             (Some (list_proposals_params status limit)) (timeout self)))
  /\ (forall proposal_id,
        only_consults (fun T => get_proposal T self proposal_id) self
          (mkRequest "GET" (base_url self ++ "/api/ops/proposals/" ++ proposal_id)
             None None (timeout self)))
  /\ (forall mission_id,
        only_consults (fun T => get_mission T self mission_id) self
          (mkRequest "GET" (base_url self ++ "/api/ops/missions/" ++ mission_id)
             None None (timeout self)))
  /\ (forall limit,
        only_consults (fun T => list_missions T self limit) self
          (mkRequest "GET" (base_url self ++ "/api/ops/missions") None
             (Some {[ "limit" := JNum limit ]}) (timeout self))).
Proof.
  repeat split; intros; intros T1 T2 H.
  - unfold list_agents.
    now rewrite (request_only_consults T1 T2 self "GET" "/api/ops/agents"
                   None None _ eq_refl H).
  - unfold get_agent.
    now rewrite (request_only_consults T1 T2 self "GET" ("/api/ops/agents/" ++ agent_id)
                   None None _ eq_refl H).
  - unfold send_heartbeat.
    now rewrite (request_only_consults T1 T2 self "POST"
                   ("/api/ops/agents/" ++ agent_id ++ "/heartbeat")
                   (Some (JObj {[ "status" := JStr status ]})) None _ eq_refl H).
  - unfold create_proposal. cbv zeta.
    now rewrite (request_only_consults T1 T2 self "POST" "/api/ops/proposals"
                   (Some (JObj (create_proposal_payload title description proposed_by
                                  priority steps))) None _ eq_refl H).
  - unfold list_proposals. cbv zeta.
    now rewrite (request_only_consults T1 T2 self "GET" "/api/ops/proposals" None
                   (Some (list_proposals_params status limit)) _ eq_refl H).
  - unfold get_proposal.
    now rewrite (request_only_consults T1 T2 self "GET"
                   ("/api/ops/proposals/" ++ proposal_id) None None _ eq_refl H).
  - unfold get_mission.
    now rewrite (request_only_consults T1 T2 self "GET"
                   ("/api/ops/missions/" ++ mission_id) None None _ eq_refl H).
  - unfold list_missions.
    now rewrite (request_only_consults T1 T2 self "GET" "/api/ops/missions" None
                   (Some {[ "limit" := JNum limit ]}) _ eq_refl H).
Qed.

Lemma operations_requests_witness :
  send_heartbeat (answer created_response) client "minion" "healthy"
  = send_heartbeat (post_only created_response) client "minion" "healthy".
Proof.
  destruct (operations_requests client) as (_ & _ & H & _).
  apply (H "minion" "healthy"). reflexivity.
Defined.

(** X16: [list_agents] returns all the agents or none: when the records
    come as a bare list and one of them is a mapping without [id] while
    the ones before it deserialise, the whole call raises the [KeyError]
    for [id], whatever follows that record. *)
Theorem list_agents_all_or_nothing (T : Session -> Request -> outcome Response.t)
    (self : t) (l1 l2 : list json) (d : gmap string json) :
  _request T self "GET" "/api/ops/agents" None None = Ok (JArr (l1 ++ JObj d :: l2)) ->
  Forall (fun x => exists a, Agent.from_dict x = Ok a) l1 ->
  d !! "id" = None ->
  list_agents T self = Raise (KeyError "id").
Proof.
  intros H Hl Hd. unfold list_agents. rewrite H. simpl.
  apply comprehension_first_failure; [exact Hl |].
  rewrite Agent_from_dict_obj. now rewrite Hd.
Qed.

Lemma list_agents_all_or_nothing_witness :
  list_agents (answer agents_one_bad_response) client = Raise (KeyError "id").
Proof.
  apply (list_agents_all_or_nothing (answer agents_one_bad_response) client
           [ JObj {[ "id" := JStr "scout" ]} ] [ JObj {[ "id" := JStr "sage" ]} ]
           {[ "name" := JStr "Minion" ]}).
  - reflexivity.
  - constructor; [eexists; reflexivity | constructor].
  - reflexivity.
Defined.

Lemma raw_records_edge {A} (key : string) (f : json -> outcome A) (body : json) :
  list_edge_rule key body (raw ← py_iter (raw_records key body); comprehension f raw).
Proof.
  repeat split.
  - destruct body; simpl; try reflexivity; discriminate.
  - intros d v -> Hk Hv. simpl. rewrite (dict_get_default_Some _ _ _ _ Hk).
    destruct v; try discriminate; reflexivity.
  - intros d v -> Hk Hd Hv. simpl.
    rewrite (dict_get_default_None _ _ _ Hk), (dict_get_default_Some _ _ _ _ Hd).
    destruct v; try discriminate; reflexivity.
Qed.

(** X17: when the request helper returns a body that is neither a mapping
    nor a list (a string, a number, a boolean, null), each list operation
    returns an empty list; when the body is a mapping whose chosen key
    (the entity key, or [data] in its absence) holds null, a boolean or a
    number, the operation raises [TypeError] - a null under the entity key
    is not skipped in favour of [data]. *)
Theorem list_operations_edge_cases (T : Session -> Request -> outcome Response.t)
    (self : t) (body : json) :
  (_request T self "GET" "/api/ops/agents" None None = Ok body ->
     list_edge_rule "agents" body (list_agents T self))
  /\ (forall status limit,
        _request T self "GET" "/api/ops/proposals" None
          (Some (list_proposals_params status limit)) = Ok body ->
        list_edge_rule "proposals" body (list_proposals T self status limit))
  /\ (forall limit,
        _request T self "GET" "/api/ops/missions" None
          (Some {[ "limit" := JNum limit ]}) = Ok body ->
        list_edge_rule "missions" body (list_missions T self limit)).
Proof.
  split; [|split].
  - intros H. unfold list_agents. rewrite H. apply raw_records_edge.
  - intros status limit H. unfold list_proposals. cbv zeta. rewrite H.
    apply raw_records_edge.
  - intros limit H. unfold list_missions. rewrite H. apply raw_records_edge.
Qed.

Lemma list_operations_edge_cases_witness :
  list_agents (answer agents_null_response) client = Raise TypeError.
Proof.
  destruct (list_operations_edge_cases (answer agents_null_response) client
              agents_null_body) as (H & _).
  destruct (H eq_refl) as (_ & Hnull & _).
  apply (Hnull _ JNull eq_refl); reflexivity.
Defined.

End OperationProps.
